(** * Micronaut project build helper (src/micronaut/src/projectBuild.ts)

    A shallow embedding of the goal catalog, the Gradle task-report parser,
    the command synthesizer and the [build] action, with the properties of
    the specification stated and proved over it.

    JavaScript strings are sequences of UTF-16 code units; they are modelled
    as lists of [N].  The regular expressions of the source carry no [u]
    flag, so they work on code units as well. *)

From Stdlib Require Import String Ascii List NArith Bool Arith Lia.
Import ListNotations.

Set Implicit Arguments.

(** ** Strings *)

Module JS.

Definition jsstring := list N.

(** A literal of the source, written as a Rocq string. *)
Definition lit (s : string) : jsstring :=
  map N_of_ascii (list_ascii_of_string s).

Fixpoint eqb (a b : jsstring) : bool :=
  match a, b with
  | [], [] => true
  | x :: a', y :: b' => N.eqb x y && eqb a' b'
  | _, _ => false
  end.

(** Truthiness of a string: every string but the empty one. *)
Definition truthy (s : jsstring) : bool :=
  match s with [] => false | _ :: _ => true end.

(** LineTerminator of ECMAScript: LF, CR, LS, PS.  The [.] of a regular
    expression without the [s] flag matches every code unit but these. *)
Definition is_line_terminator (c : N) : bool :=
  (c =? 10)%N || (c =? 13)%N || (c =? 8232)%N || (c =? 8233)%N.

(** [\s] of a regular expression, which is also what [trim] strips:
    WhiteSpace and LineTerminator. *)
Definition is_space (c : N) : bool :=
  (c =? 9)%N || (c =? 11)%N || (c =? 12)%N || (c =? 32)%N || (c =? 160)%N
  || (c =? 5760)%N || ((8192 <=? c)%N && (c <=? 8202)%N)
  || (c =? 8239)%N || (c =? 8287)%N || (c =? 12288)%N || (c =? 65279)%N
  || is_line_terminator c.

Definition non_space (c : N) : bool := negb (is_space c).
Definition dot (c : N) : bool := negb (is_line_terminator c).

Definition LF : N := 10.
Definition CR : N := 13.
Definition SPACE : N := 32.
Definition HYPHEN : N := 45.
Definition BACKSLASH : N := 92.

Fixpoint drop_while (p : N -> bool) (s : jsstring) : jsstring :=
  match s with
  | [] => []
  | c :: s' => if p c then drop_while p s' else s
  end.

(** [String.prototype.trim]. *)
Definition trim (s : jsstring) : jsstring :=
  rev (drop_while is_space (rev (drop_while is_space s))).

(** [String.prototype.startsWith]. *)
Fixpoint startsWith (s p : jsstring) {struct p} : bool :=
  match p, s with
  | [], _ => true
  | x :: p', y :: s' => N.eqb x y && startsWith s' p'
  | _ :: _, [] => false
  end.

(** [s.split('\n')]: the pieces between line feeds; never an empty array. *)
Fixpoint split_lf (s : jsstring) : list jsstring :=
  match s with
  | [] => [[]]
  | c :: s' =>
      if (c =? LF)%N then [] :: split_lf s'
      else match split_lf s' with
           | l :: ls => (c :: l) :: ls
           | [] => [[c]]
           end
  end.

(** The inverse view: lines joined by line feeds. *)
Fixpoint join_lf (ls : list jsstring) : jsstring :=
  match ls with
  | [] => []
  | [l] => l
  | l :: ls' => l ++ LF :: join_lf ls'
  end.

End JS.

Import JS.

(** ** Regular expressions of the source

    Both expressions of the file are sequences of greedy quantifiers over
    character classes.  [greedy cls min s acc k] is the backtracking
    matcher of [cls{min,}] followed by the rest of the pattern [k]: it takes
    as many code units as the class allows and gives them back one at a time
    until the rest of the pattern matches. *)

Module Regex.

Section Greedy.

Variable A : Type.

Fixpoint greedy (cls : N -> bool) (min : nat) (s : jsstring) (acc : jsstring)
         (k : jsstring -> jsstring -> option A) : option A :=
  let stop := match min with O => k acc s | S _ => None end in
  match s with
  | [] => stop
  | c :: s' =>
      if cls c then
        match greedy cls (pred min) s' (acc ++ [c]) k with
        | Some r => Some r
        | None => stop
        end
      else stop
  end.

End Greedy.

(** The expression of [parseAvailableGradleGoals] (a group of [\S+], then
    [\s*], a hyphen, [\s*] and a group of [.] repeated greedily) tried at the
    start of [s]: the two groups. *)
Definition goal_pattern_at (s : jsstring) : option (jsstring * jsstring) :=
  greedy non_space 1 s [] (fun g1 r1 =>
  greedy is_space 0 r1 [] (fun _ r2 =>
  match r2 with
  | c :: r3 =>
      if (c =? HYPHEN)%N then
        greedy is_space 0 r3 [] (fun _ r4 =>
        greedy dot 0 r4 [] (fun g2 _ => Some (g1, g2)))
      else None
  | [] => None
  end)).

(** [line.match] with that expression: the pattern is not anchored, so it is
    tried at every index from the left, the end of the string included.  A
    successful match is an array of length 3 (the match and its two groups);
    the model keeps the groups. *)
Fixpoint goal_pattern (s : jsstring) : option (jsstring * jsstring) :=
  match goal_pattern_at s with
  | Some r => Some r
  | None =>
      match s with
      | [] => None
      | _ :: s' => goal_pattern s'
      end
  end.

(** [s.replace(/(\s+)/g, '\\$1')]: every maximal run of white space is
    replaced by a backslash and the run.  [in_run] tells that the previous
    code unit belongs to the run being copied. *)
Fixpoint escape_from (in_run : bool) (s : jsstring) : jsstring :=
  match s with
  | [] => []
  | c :: s' =>
      if is_space c then
        (if in_run then [c] else [BACKSLASH; c]) ++ escape_from true s'
      else c :: escape_from false s'
  end.

Definition escape_whitespace (s : jsstring) : jsstring := escape_from false s.

End Regex.

Import Regex.

(** ** Goals and the catalog *)

(** [vscode.QuickPickItem], as far as the file uses it. *)
Record QuickPickItem := { label : jsstring; detail : jsstring }.

Record Goals := { build_goals : list QuickPickItem;
                  deploy_goals : list QuickPickItem }.

(** What [goals[group]] can be.  [goals] is a plain object with the two
    properties [build] and [deploy]; any other name is looked up in
    [Object.prototype], which holds functions (of which the code reads the
    [length], their number of parameters) and, under [__proto__], the
    prototype object itself; a name found nowhere reads as [undefined]. *)
Inductive Member :=
| Sequence (items : list QuickPickItem)
| Method (parameters : nat)
| Prototype
| Missing.

(** ** The Gradle output parser *)

(** The body of the [forEach] callback of [parseAvailableGradleGoals]:
    the state is the flag [process] and the array [goals]. *)
Definition parse_line (category : jsstring)
           (st : bool * list QuickPickItem) (line : jsstring)
  : bool * list QuickPickItem :=
  let '(process, goals) := st in
  if process then
    let process' := match line with [] => false | _ :: _ => process end in
    if negb (startsWith line (lit "---")) then
      match goal_pattern line with
      | Some (g1, g2) => (process', goals ++ [{| label := g1; detail := g2 |}])
      | None => (process', goals)
      end
    else (process', goals)
  else
    if JS.eqb line category then (true, goals) else (process, goals).

Definition parseAvailableGradleGoals (out category : jsstring)
  : list QuickPickItem :=
  snd (fold_left (parse_line category) (map trim (split_lf out)) (false, [])).

(** [getAvailableMavenGoals]. *)
Definition getAvailableMavenGoals : Goals :=
  {| build_goals :=
       [ {| label := lit "clean"; detail := lit "Cleans the project" |};
         {| label := lit "compile";
            detail := lit "Compiles the source code of the project" |};
         {| label := lit "package";
            detail := lit "Packages the compiled code in its distributable format" |};
         {| label := lit "nativeImage";
            detail := lit "Packages the compiled code as a GraalVM native image" |};
         {| label := lit "dockerBuild";
            detail := lit "Builds a Docker image with the application artifacts" |};
         {| label := lit "dockerBuildNative";
            detail := lit "Builds a Docker image with a GraalVM native image inside" |} ];
     deploy_goals :=
       [ {| label := lit "dockerPush"; detail := lit "Pushes a Docker Image" |};
         {| label := lit "dockerPushNative";
            detail := lit "Pushes a Native Docker Image using GraalVM" |} ] |}.

(** ** The command synthesizer *)

(** [vscode.Uri], as far as the file uses it. *)
Record Uri := { fsPath : jsstring }.

(** [terminalGradleCommandFor]. *)
Definition terminalGradleCommandFor (wrapper : Uri) (goal : jsstring)
  : option jsstring :=
  let exec := escape_whitespace (fsPath wrapper) in
  if truthy exec then Some (exec ++ lit " " ++ goal ++ lit " --no-daemon")
  else None.

(** The [switch] of [terminalMavenCommandFor]. *)
Definition maven_command (goal : jsstring) : jsstring :=
  if JS.eqb goal (lit "build") then lit "compile"
  else if JS.eqb goal (lit "nativeImage") then
    lit "package -Dpackaging=native-image"
  else if JS.eqb goal (lit "dockerBuild") then lit "package -Dpackaging=docker"
  else if JS.eqb goal (lit "dockerBuildNative") then
    lit "package -Dpackaging=docker-native"
  else if JS.eqb goal (lit "dockerPush") then lit "deploy -Dpackaging=docker"
  else if JS.eqb goal (lit "dockerPushNative") then
    lit "deploy -Dpackaging=docker-native"
  else goal.

(** [terminalMavenCommandFor]. *)
Definition terminalMavenCommandFor (wrapper : Uri) (goal : jsstring)
  : option jsstring :=
  let exec := escape_whitespace (fsPath wrapper) in
  if truthy exec then
    let command := maven_command goal in
    if truthy command then Some (exec ++ lit " " ++ command) else None
  else None.

(** ** Effects

    The host (workspace search, child processes, pickers, notifications,
    terminals) is a record of answers; what the program does to it is
    written to a log.  The module variable [goals] and the open terminals
    are the state. *)

Inductive Exception :=
| TypeError
| Error (message : jsstring)
| ChildProcessError.

Inductive Event :=
| FindFiles (include exclude : jsstring)
| ExecFileSync (file : jsstring) (args : list jsstring)
| ShowQuickPick (items : list QuickPickItem) (placeHolder : jsstring)
| ShowQuickPickOf (items : Member) (placeHolder : jsstring)
| ShowInformationMessage (message item : jsstring)
| ShowWarningMessage (message : jsstring)
| ExecuteCommand (command : jsstring) (args : list jsstring)
| TerminalDispose (name : jsstring)
| CreateTerminal (name : jsstring) (env : list (jsstring * jsstring))
| TerminalShow (name : jsstring)
| TerminalSendText (name text : jsstring).

Record Terminal := { name : jsstring;
                     env : list (jsstring * jsstring);
                     sent : list jsstring }.

Record State := { goals : option Goals;
                  terminals : list Terminal;
                  log : list Event }.

Inductive Result (A : Type) :=
| Ok (a : A)
| Throw (e : Exception).
Arguments Ok {A} a.
Arguments Throw {A} e.

Definition M (A : Type) := State -> Result A * State.

Definition ret {A} (a : A) : M A := fun st => (Ok a, st).

Definition bind {A B} (c : M A) (k : A -> M B) : M B :=
  fun st => match c st with
            | (Ok a, st') => k a st'
            | (Throw e, st') => (Throw e, st')
            end.

Definition throw {A} (e : Exception) : M A := fun st => (Throw e, st).

(** The state after the effect [e]. *)
Definition logged (e : Event) (st : State) : State :=
  {| goals := goals st; terminals := terminals st; log := log st ++ [e] |}.

Definition emit (e : Event) : M unit := fun st => (Ok tt, logged e st).

Definition get_goals : M (option Goals) := fun st => (Ok (goals st), st).

Definition set_goals (g : Goals) : M unit :=
  fun st => (Ok tt, {| goals := Some g; terminals := terminals st;
                       log := log st |}).

Definition get_terminals : M (list Terminal) :=
  fun st => (Ok (terminals st), st).

Definition set_terminals (ts : list Terminal) : M unit :=
  fun st => (Ok tt, {| goals := goals st; terminals := ts; log := log st |}).

Declare Scope monad_scope.
Delimit Scope monad_scope with monad.
Notation "x <- c ;; k" := (bind c (fun x => k))
  (at level 61, c at next level, right associativity) : monad_scope.
Notation "c ;; k" := (bind c (fun _ => k))
  (at level 61, right associativity) : monad_scope.
Local Open Scope monad_scope.

(** Truthiness of a value of type [string | undefined]. *)
Definition truthy_opt (o : option jsstring) : bool :=
  match o with Some s => truthy s | None => false end.

(** The answers of the host.  [getJavaHome] and [findExecutable] are the
    helpers imported from [./utils]; [dirname], [join] and [delimiter] are
    those of Node's [path].  [showQuickPick] is the picker called on an
    array of items; [showQuickPickOf] is the same picker called on a value
    that is no array, where the host may also reject. *)
Record Host := {
  win32 : bool;
  findFiles : jsstring -> jsstring -> list Uri;
  execFileSync : jsstring -> list jsstring -> option jsstring;
  getJavaHome : option jsstring;
  findExecutable : jsstring -> jsstring -> option jsstring;
  showQuickPick : list QuickPickItem -> jsstring -> option QuickPickItem;
  showQuickPickOf : Member -> jsstring -> Result (option QuickPickItem);
  showInformationMessage : jsstring -> jsstring -> option jsstring;
  env_PATH : jsstring;
  dirname : jsstring -> jsstring;
  join : jsstring -> jsstring -> jsstring;
  delimiter : jsstring
}.

Definition MICRONAUT : jsstring := lit "Micronaut".
Definition NATIVE_IMAGE : jsstring := lit "native-image".

Section Build.

Variable H : Host.

Definition gradle_glob : jsstring :=
  if win32 H then lit "**/gradlew.bat" else lit "**/gradlew".
Definition maven_glob : jsstring :=
  if win32 H then lit "**/mvnw.bat" else lit "**/mvnw".
Definition exclude_glob : jsstring := lit "**/node_modules/**".

Definition workspace_findFiles (include exclude : jsstring) : M (list Uri) :=
  emit (FindFiles include exclude) ;; ret (findFiles H include exclude).

(** [buildWrapper].  A handler returns [T | undefined]; the trailing
    arguments of the source are captured by the handlers. *)
Definition buildWrapper {T} (gradle maven : option (Uri -> M (option T)))
  : M (option T) :=
  wrapper <- workspace_findFiles gradle_glob exclude_glob ;;
  match gradle, wrapper with
  | Some g, w0 :: _ => g w0
  | _, _ =>
      wrapper <- workspace_findFiles maven_glob exclude_glob ;;
      match maven, wrapper with
      | Some m, w0 :: _ => m w0
      | _, _ => ret None
      end
  end.

(** [terminalCommandFor]. *)
Definition terminalCommandFor (goal : jsstring) : M (option jsstring) :=
  buildWrapper (Some (fun w => ret (terminalGradleCommandFor w goal)))
               (Some (fun w => ret (terminalMavenCommandFor w goal))).

(** [getAvailableGradleGoals]; [execFileSync] throws when the wrapper cannot
    be run or exits with an error. *)
Definition getAvailableGradleGoals (wrapper : Uri) : M Goals :=
  let args := [lit "tasks"; lit "--no-daemon";
               lit "--project-dir=" ++ dirname H (fsPath wrapper)] in
  emit (ExecFileSync (fsPath wrapper) args) ;;
  match execFileSync H (fsPath wrapper) args with
  | None => throw ChildProcessError
  | Some out =>
      let buildGoals := parseAvailableGradleGoals out (lit "Build tasks") in
      let deployGoals := parseAvailableGradleGoals out (lit "Upload tasks") in
      ret {| build_goals := buildGoals; deploy_goals := deployGoals |}
  end.

(** [builderInit]. *)
Definition builderInit : M unit :=
  r <- buildWrapper
         (Some (fun w => g <- getAvailableGradleGoals w ;; ret (Some g)))
         (Some (fun _ => ret (Some getAvailableMavenGoals))) ;;
  set_goals match r with
            | Some g => g
            | None => {| build_goals := []; deploy_goals := [] |}
            end.

(** [group || 'build']. *)
Definition group_or_default (group : option jsstring) : jsstring :=
  match group with
  | Some ((_ :: _) as g) => g
  | _ => lit "build"
  end.

(** The members that a plain object inherits from [Object.prototype], with
    the [length] of the functions. *)
Definition inherited (group : jsstring) : Member :=
  if JS.eqb group (lit "constructor") then Method 1
  else if JS.eqb group (lit "toString") then Method 0
  else if JS.eqb group (lit "toLocaleString") then Method 0
  else if JS.eqb group (lit "valueOf") then Method 0
  else if JS.eqb group (lit "hasOwnProperty") then Method 1
  else if JS.eqb group (lit "isPrototypeOf") then Method 1
  else if JS.eqb group (lit "propertyIsEnumerable") then Method 1
  else if JS.eqb group (lit "__defineGetter__") then Method 2
  else if JS.eqb group (lit "__defineSetter__") then Method 2
  else if JS.eqb group (lit "__lookupGetter__") then Method 1
  else if JS.eqb group (lit "__lookupSetter__") then Method 1
  else if JS.eqb group (lit "__proto__") then Prototype
  else Missing.

(** [g[group as keyof Goals]]: the cast is erased, so any string is looked
    up, first among the two properties of the object, then in its
    prototype. *)
Definition member (g : Goals) (group : jsstring) : Member :=
  if JS.eqb group (lit "build") then Sequence (build_goals g)
  else if JS.eqb group (lit "deploy") then Sequence (deploy_goals g)
  else inherited group.

(** [goals[group as keyof Goals]] on the module variable, which is
    [undefined] until [builderInit] has run: reading a property of
    [undefined] throws. *)
Definition goals_of_group (group : jsstring) : M Member :=
  g <- get_goals ;;
  match g with
  | None => throw TypeError
  | Some g => ret (member g group)
  end.

(** [items.length]; [None] is [undefined]. *)
Definition length_of (items : Member) : option nat :=
  match items with
  | Sequence l => Some (length l)
  | Method parameters => Some parameters
  | Prototype => None
  | Missing => None
  end.

(** [items[0]]: a function and the prototype object have no such
    property. *)
Definition first_of (items : Member) : option QuickPickItem :=
  match items with
  | Sequence (item :: _) => Some item
  | _ => None
  end.

(** [await vscode.window.showQuickPick(items, { placeHolder })]. *)
Definition pick (items : Member) (placeHolder : jsstring)
  : M (option QuickPickItem) :=
  match items with
  | Sequence l =>
      emit (ShowQuickPick l placeHolder) ;;
      ret (showQuickPick H l placeHolder)
  | _ =>
      emit (ShowQuickPickOf items placeHolder) ;;
      match showQuickPickOf H items placeHolder with
      | Ok selected => ret selected
      | Throw e => throw e
      end
  end.

(** Lines 29 to 38 of [build]: the goal when none was given.  Reading
    [items.length] throws when [items] is [undefined]; a [length] that is
    [undefined] passes none of the three comparisons. *)
Definition chooseGoal (goal : option jsstring) (group : jsstring)
           (items : Member) : M (option jsstring) :=
  if negb (truthy_opt goal) then
    match items with
    | Missing => throw TypeError
    | _ =>
        match length_of items with
        | Some 0 => ret (Some (lit "build"))
        | len =>
            let placeHolder := lit "Select " ++ group ++ lit " goal to invoke" in
            selected <- match len with
                        | Some (S (S _)) => pick items placeHolder
                        | Some 1 => ret (first_of items)
                        | _ => ret None
                        end ;;
            match selected with
            | Some selected => ret (Some (label selected))
            | None => ret goal
            end
        end
    end
  else ret goal.

Fixpoint dispose_named (n : jsstring) (ts : list Terminal) : list Terminal :=
  match ts with
  | [] => []
  | t :: ts' => if JS.eqb (name t) n then ts' else t :: dispose_named n ts'
  end.

(** Lines 56 to 72 of [build]: synthesis and the terminal. *)
Definition launch (goal : jsstring) (javaHome : option jsstring) : M unit :=
  command <- terminalCommandFor goal ;;
  if truthy_opt command then
    let command := match command with Some c => c | None => [] end in
    ts <- get_terminals ;;
    (if existsb (fun t => JS.eqb (name t) MICRONAUT) ts then
       emit (TerminalDispose MICRONAUT) ;;
       set_terminals (dispose_named MICRONAUT ts)
     else ret tt) ;;
    let env :=
      match javaHome with
      | Some ((_ :: _) as jh) =>
          [ (lit "JAVA_HOME", jh);
            (lit "PATH", join H jh (lit "bin") ++ delimiter H ++ env_PATH H) ]
      | _ => []
      end in
    emit (CreateTerminal MICRONAUT env) ;;
    emit (TerminalShow MICRONAUT) ;;
    emit (TerminalSendText MICRONAUT command) ;;
    ts <- get_terminals ;;
    set_terminals (ts ++ [{| name := MICRONAUT; env := env;
                             sent := [command] |}])
  else throw (Error (lit "No terminal command for " ++ goal)).

(** Lines 40 to 55 of [build]: the probe for the [native-image] tool.  The
    result tells whether the build goes on. *)
Definition checkNativeImage (goal : jsstring) (javaHome : option jsstring)
  : M bool :=
  if truthy_opt javaHome
     && (JS.eqb goal (lit "nativeImage")
         || JS.eqb goal (lit "dockerBuildNative")) then
    let jh := match javaHome with Some j => j | None => [] end in
    let nativeImage := findExecutable H NATIVE_IMAGE jh in
    if negb (truthy_opt nativeImage) then
      let gu := findExecutable H (lit "gu") jh in
      if truthy_opt gu then
        let message := NATIVE_IMAGE ++ lit " is not installed in your GraalVM" in
        let install := lit "Install " ++ NATIVE_IMAGE in
        emit (ShowInformationMessage message install) ;;
        match showInformationMessage H message install with
        | Some selected =>
            if JS.eqb selected install then
              emit (ExecuteCommand
                      (lit "extension.graalvm.installGraalVMComponent")
                      [NATIVE_IMAGE; jh]) ;;
              ret false
            else ret true
        | None => ret true
        end
      else
        emit (ShowWarningMessage (lit "native-image is missing in " ++ jh)) ;;
        ret true
    else ret true
  else ret true.

(** [build]. *)
Definition build (goal group : option jsstring) : M unit :=
  let group := group_or_default group in
  items <- goals_of_group group ;;
  goal <- chooseGoal goal group items ;;
  if truthy_opt goal then
    let goal := match goal with Some g => g | None => [] end in
    let javaHome := getJavaHome H in
    continue <- checkNativeImage goal javaHome ;;
    if continue then launch goal javaHome else ret tt
  else ret tt.

End Build.

(** * Vocabulary of the statements: patterns, sections, sample inputs *)

Fixpoint take_while (p : N -> bool) (s : jsstring) : jsstring :=
  match s with
  | [] => []
  | c :: s' => if p c then c :: take_while p s' else []
  end.

(** What follows a maximal run does not belong to the class. *)
Definition stops (p : N -> bool) (s : jsstring) : Prop :=
  match s with [] => True | c :: _ => p c = false end.

(** [line] holds, after [pre], a token, white space, a hyphen, white space
    and the description [desc], which ends where [post] begins. *)
Definition pattern_at (line pre tok desc post : jsstring) : Prop :=
  exists ws1 ws2,
    line = pre ++ tok ++ ws1 ++ [HYPHEN] ++ ws2 ++ desc ++ post /\
    tok <> [] /\ forallb non_space tok = true /\
    forallb is_space ws1 = true /\ forallb is_space ws2 = true /\
    forallb dot desc = true.

(** The pattern as the specification words it: the description is the rest
    of the line. *)
Definition pattern_to_end (line tok desc : jsstring) : Prop :=
  exists pre, pattern_at line pre tok desc [].

(** The pattern as the expression has it: the description begins after all
    the white space that follows the hyphen, and ends at the end of the line
    or before a line terminator inside the line. *)
Definition pattern_in_line (line tok desc : jsstring) : Prop :=
  exists pre post,
    pattern_at line pre tok desc post /\ stops is_space desc /\ stops dot post.

(** What one line inside the section adds to [goals]. *)
Definition line_goals (line : jsstring) : list QuickPickItem :=
  if startsWith line (lit "---") then []
  else match goal_pattern line with
       | Some (g1, g2) => [{| label := g1; detail := g2 |}]
       | None => []
       end.

(** ** A well-formed section of the task report

    The lines between the header and the blank line, as Gradle prints them:
    the divider under the header, a task with its description, or a line
    without a hyphen. *)
Inductive SectionLine :=
| Divider (rest : jsstring)
| Task (tok ws1 ws2 desc : jsstring)
| Other (text : jsstring).

Definition render (l : SectionLine) : jsstring :=
  match l with
  | Divider rest => lit "---" ++ rest
  | Task tok ws1 ws2 desc => tok ++ ws1 ++ [HYPHEN] ++ ws2 ++ desc
  | Other text => text
  end.

Definition well_formed (l : SectionLine) : bool :=
  match l with
  | Divider _ => true
  | Task tok ws1 ws2 desc =>
      truthy tok && forallb non_space tok
      && truthy ws1 && forallb is_space ws1 && forallb is_space ws2
      && forallb dot desc
      && match desc with [] => true | c :: _ => non_space c end
      && negb (startsWith (render l) (lit "---"))
  | Other text =>
      truthy text && forallb (fun c => negb (c =? HYPHEN)%N) text
      && negb (startsWith text (lit "---"))
  end.

(** The task/description pairs of the section, in their order. *)
Definition listed (l : SectionLine) : list QuickPickItem :=
  match l with
  | Task tok _ _ desc => [{| label := tok; detail := desc |}]
  | _ => []
  end.

(** A task report as Gradle prints it on Windows: every line ends in CR LF. *)
Definition sample_report : jsstring :=
  join_lf (map (fun l => lit l ++ [CR])
    [ "> Task :tasks"; "";
      "Build tasks"; "-----------";
      "assemble - Assembles the outputs of this project.";
      "build - Assembles and tests this project."; "";
      "Upload tasks"; "------------";
      "dockerPush - Pushes a Docker Image"; "";
      "To see all tasks, run gradlew tasks --all" ]%string).

Definition sample_section : list SectionLine :=
  [ Divider (lit "--------");
    Task (lit "assemble") [SPACE] [SPACE]
         (lit "Assembles the outputs of this project.");
    Task (lit "build") [SPACE] [SPACE]
         (lit "Assembles and tests this project.") ].

(** A line with a carriage return inside it. *)
Definition broken_line : jsstring := lit "a - b" ++ [CR] ++ lit "c".

(** Whether [a], read after a code unit of class [prev], ends in white
    space. *)
Fixpoint ends_in_space (prev : bool) (a : jsstring) : bool :=
  match a with
  | [] => prev
  | c :: a' => ends_in_space (is_space c) a'
  end.

(** The lookup table of the Maven goals, as the specification lists it. *)
Definition maven_table : list (jsstring * jsstring) :=
  [ (lit "build", lit "compile");
    (lit "nativeImage", lit "package -Dpackaging=native-image");
    (lit "dockerBuild", lit "package -Dpackaging=docker");
    (lit "dockerBuildNative", lit "package -Dpackaging=docker-native");
    (lit "dockerPush", lit "deploy -Dpackaging=docker");
    (lit "dockerPushNative", lit "deploy -Dpackaging=docker-native") ].

Definition spaced_wrapper : Uri := {| fsPath := lit "/home/me/my project/gradlew" |}.

Definition initial : State := {| goals := None; terminals := []; log := [] |}.

Definition empty_catalog : Goals := {| build_goals := []; deploy_goals := [] |}.

(** A workspace on Linux with the given wrappers, whose Gradle wrapper
    prints [out], with GraalVM at [/opt/graalvm] holding the executables
    that [exe] knows, and a user who dismisses every picker and prompt. *)
Definition sample_host (gradle maven : list Uri) (out : jsstring)
           (exe : jsstring -> option jsstring) : Host :=
  {| win32 := false;
     findFiles := fun include _ =>
       if JS.eqb include (lit "**/gradlew") then gradle
       else if JS.eqb include (lit "**/mvnw") then maven
       else [];
     execFileSync := fun _ _ => Some out;
     getJavaHome := Some (lit "/opt/graalvm");
     findExecutable := fun program _ => exe program;
     showQuickPick := fun _ _ => None;
     showQuickPickOf := fun _ _ => Throw TypeError;
     showInformationMessage := fun _ _ => None;
     env_PATH := lit "/usr/bin";
     dirname := fun _ => lit "/work/demo";
     join := fun a b => a ++ lit "/" ++ b;
     delimiter := lit ":" |}.

Definition gradlew : Uri := {| fsPath := lit "/work/demo/gradlew" |}.
Definition mvnw : Uri := {| fsPath := lit "/work/demo/mvnw" |}.


Definition gradle_host (out : jsstring) : Host :=
  sample_host [gradlew] [mvnw] out (fun _ => None).

Definition bare_host : Host := sample_host [] [] [] (fun _ => None).


Definition maven_state : State :=
  {| goals := Some getAvailableMavenGoals; terminals := []; log := [] |}.

(** A catalog whose build group holds one goal. *)
Definition single_catalog : Goals :=
  {| build_goals := [{| label := lit "assemble";
                        detail := lit "Assembles the outputs of this project." |}];
     deploy_goals := [] |}.

Definition single_state : State :=
  {| goals := Some single_catalog; terminals := []; log := [] |}.

(** The state after the search for a Gradle wrapper, and after the search
    for a Maven wrapper that follows it. *)
Definition searched_gradle (H : Host) (st : State) : State :=
  logged (FindFiles (gradle_glob H) exclude_glob) st.

Definition searched_both (H : Host) (st : State) : State :=
  logged (FindFiles (maven_glob H) exclude_glob) (searched_gradle H st).

Definition placeHolder_of (group : option jsstring) : jsstring :=
  lit "Select " ++ group_or_default group ++ lit " goal to invoke".



(** A report whose last section runs to the end of the text. *)
Definition unterminated_report : jsstring :=
  join_lf (map lit
    [ "Build tasks"; "-----------";
      "assemble - Assembles the outputs of this project.";
      "build - Assembles and tests this project." ]%string).

(** A report that prints the Build tasks section of two projects. *)
Definition repeated_report : jsstring :=
  join_lf (map lit
    [ "Build tasks"; "-----------";
      "assemble - Assembles the outputs of this project.";
      "build - Assembles and tests this project."; "";
      "Help tasks"; "----------"; "help - Displays a help message."; "";
      "Build tasks"; "-----------";
      "jar - Assembles a jar archive."; "" ]%string).

(** The reading of an escaped path that drops a backslash in front of white
    space; it serves to show that escaping loses nothing. *)
Fixpoint unescape_whitespace (s : jsstring) : jsstring :=
  match s with
  | [] => []
  | c :: s' =>
      match s' with
      | d :: _ =>
          if (c =? BACKSLASH)%N && is_space d then unescape_whitespace s'
          else c :: unescape_whitespace s'
      | [] => [c]
      end
  end.

(** ** Vocabulary of the build action *)

(** The terminals called [n]. *)
Definition named (n : jsstring) (t : Terminal) : bool := JS.eqb (name t) n.

(** The command that [terminalCommandFor] finds in the workspace of [H],
    and the state after its searches. *)
Definition synthesized (H : Host) (goal : jsstring) : option jsstring :=
  match findFiles H (gradle_glob H) exclude_glob with
  | w :: _ => terminalGradleCommandFor w goal
  | [] =>
      match findFiles H (maven_glob H) exclude_glob with
      | w :: _ => terminalMavenCommandFor w goal
      | [] => None
      end
  end.

Definition searched (H : Host) (st : State) : State :=
  match findFiles H (gradle_glob H) exclude_glob with
  | _ :: _ => searched_gradle H st
  | [] => searched_both H st
  end.

(** The environment of the terminal that [build] opens. *)
Definition terminal_env (H : Host) (javaHome : option jsstring)
  : list (jsstring * jsstring) :=
  match javaHome with
  | Some ((_ :: _) as jh) =>
      [ (lit "JAVA_HOME", jh);
        (lit "PATH", join H jh (lit "bin") ++ delimiter H ++ env_PATH H) ]
  | _ => []
  end.

(** The state after [command] has been sent to a fresh terminal: the first
    terminal called Micronaut, if there is one, is disposed of; a new one is
    created, shown and given the command. *)
Definition launched (H : Host) (javaHome : option jsstring)
           (command : jsstring) (st : State) : State :=
  let old := existsb (named MICRONAUT) (terminals st) in
  {| goals := goals st;
     terminals :=
       (if old then dispose_named MICRONAUT (terminals st) else terminals st)
       ++ [{| name := MICRONAUT; env := terminal_env H javaHome;
              sent := [command] |}];
     log :=
       (log st ++ (if old then [TerminalDispose MICRONAUT] else []))
       ++ [ CreateTerminal MICRONAUT (terminal_env H javaHome);
            TerminalShow MICRONAUT;
            TerminalSendText MICRONAUT command ] |}.

(** A state with an editor terminal and a Micronaut terminal of an earlier
    build. *)
Definition busy_state : State :=
  {| goals := Some getAvailableMavenGoals;
     terminals := [ {| name := lit "bash"; env := []; sent := [] |};
                    {| name := lit "Micronaut"; env := [];
                       sent := [lit "/work/demo/mvnw compile"] |} ];
     log := [] |}.

Definition maven_host : Host := sample_host [] [mvnw] [] (fun _ => None).

(** A catalog parsed from a report without an Upload tasks section. *)
Definition no_upload_state : State :=
  {| goals := Some {| build_goals :=
                        parseAvailableGradleGoals unterminated_report
                                                  (lit "Build tasks");
                      deploy_goals :=
                        parseAvailableGradleGoals unterminated_report
                                                  (lit "Upload tasks") |};
     terminals := []; log := [] |}.

(** [st'] differs from [st] by events added to the log at most. *)
Definition only_logged (st st' : State) : Prop :=
  goals st' = goals st /\ terminals st' = terminals st /\
  exists events, log st' = log st ++ events.

(** The arguments of the task listing run on [wrapper]. *)
Definition tasks_args (H : Host) (wrapper : Uri) : list jsstring :=
  [ lit "tasks"; lit "--no-daemon";
    lit "--project-dir=" ++ dirname H (fsPath wrapper) ].

(** A Gradle wrapper that cannot be run. *)
Definition failing_host : Host :=
  {| win32 := false;
     findFiles := fun include _ =>
       if JS.eqb include (lit "**/gradlew") then [gradlew]
       else if JS.eqb include (lit "**/mvnw") then [mvnw]
       else [];
     execFileSync := fun _ _ => None;
     getJavaHome := None;
     findExecutable := fun _ _ => None;
     showQuickPick := fun _ _ => None;
     showQuickPickOf := fun _ _ => Throw TypeError;
     showInformationMessage := fun _ _ => None;
     env_PATH := lit "/usr/bin";
     dirname := fun _ => lit "/work/demo";
     join := fun a b => a ++ lit "/" ++ b;
     delimiter := lit ":" |}.

(** A user who picks the second goal of what is offered. *)
Definition picking_host : Host :=
  {| win32 := false;
     findFiles := fun include _ =>
       if JS.eqb include (lit "**/mvnw") then [mvnw] else [];
     execFileSync := fun _ _ => None;
     getJavaHome := None;
     findExecutable := fun _ _ => None;
     showQuickPick := fun items _ => nth_error items 1;
     showQuickPickOf := fun _ _ => Throw TypeError;
     showInformationMessage := fun _ _ => None;
     env_PATH := lit "/usr/bin";
     dirname := fun _ => lit "/work/demo";
     join := fun a b => a ++ lit "/" ++ b;
     delimiter := lit ":" |}.

(** The events of the goal picker. *)
Definition is_picker (e : Event) : bool :=
  match e with
  | ShowQuickPick _ _ => true
  | ShowQuickPickOf _ _ => true
  | _ => false
  end.

(** [st'] differs from [st] by events other than the picker's added to the
    log, and maybe by its terminals. *)
Definition no_picker (st st' : State) : Prop :=
  exists events,
    log st' = log st ++ events /\
    forallb (fun e => negb (is_picker e)) events = true.

(** What [build] does once the goal [g] is known: the probe, then the
    command of the workspace sent to a fresh terminal. *)
Definition runs_goal (H : Host) (g : jsstring) (st : State)
  : Result unit * State :=
  match checkNativeImage H g (getJavaHome H) st with
  | (Ok true, st1) =>
      match synthesized H g with
      | Some ((_ :: _) as command) =>
          (Ok tt, launched H (getJavaHome H) command (searched H st1))
      | _ => (Throw (Error (lit "No terminal command for " ++ g)),
              searched H st1)
      end
  | (Ok false, st1) => (Ok tt, st1)
  | (Throw e, st1) => (Throw e, st1)
  end.

(** A state with two Micronaut terminals of earlier builds. *)
Definition crowded_state : State :=
  {| goals := Some getAvailableMavenGoals;
     terminals := [ {| name := lit "Micronaut"; env := [];
                       sent := [lit "first"] |};
                    {| name := lit "bash"; env := []; sent := [] |};
                    {| name := lit "Micronaut"; env := [];
                       sent := [lit "second"] |} ];
     log := [] |}.

(** * Properties *)

(** ** Strings and lines *)

Lemma eqb_eq (a b : jsstring) : JS.eqb a b = true <-> a = b.
Proof.
  revert b; induction a as [|x a IH]; intros [|y b]; simpl;
    try (split; [discriminate | discriminate]); try tauto.
  rewrite andb_true_iff, N.eqb_eq, IH.
  split; [intros [-> ->]; reflexivity | intros E; injection E; auto].
Qed.

Lemma eqb_refl (a : jsstring) : JS.eqb a a = true.
Proof. apply eqb_eq; reflexivity. Qed.

Lemma eqb_neq (a b : jsstring) : JS.eqb a b = false <-> a <> b.
Proof.
  rewrite <- eqb_eq. destruct (JS.eqb a b); split; congruence.
Qed.

Lemma take_drop_while p s : s = take_while p s ++ drop_while p s.
Proof.
  induction s as [|c s IH]; simpl; [reflexivity|].
  destruct (p c); simpl; congruence.
Qed.

Lemma take_while_all p s : forallb p (take_while p s) = true.
Proof.
  induction s as [|c s IH]; simpl; [reflexivity|].
  destruct (p c) eqn:E; simpl; [rewrite E; exact IH | reflexivity].
Qed.

Lemma drop_while_stops p s : stops p (drop_while p s).
Proof.
  induction s as [|c s IH]; simpl; [exact I|].
  destruct (p c) eqn:E; simpl; assumption.
Qed.

Lemma take_while_app p a b :
  forallb p a = true -> stops p b -> take_while p (a ++ b) = a.
Proof.
  induction a as [|c a IH]; simpl; intros Ha Hb.
  - destruct b as [|c b]; simpl in *; [reflexivity | now rewrite Hb].
  - apply andb_true_iff in Ha as [-> Ha]. f_equal; auto.
Qed.

Lemma drop_while_app p a b :
  forallb p a = true -> stops p b -> drop_while p (a ++ b) = b.
Proof.
  induction a as [|c a IH]; simpl; intros Ha Hb.
  - destruct b as [|c b]; simpl in *; [reflexivity | now rewrite Hb].
  - apply andb_true_iff in Ha as [-> Ha]. auto.
Qed.

(** ** The backtracking matcher *)

Section GreedyFacts.
Variable A : Type.
Variable cls : N -> bool.

(** The longest run is tried first: when the rest of the pattern accepts
    it, that is the match. *)
Lemma greedy_longest taken : forall min acc rest
    (k : jsstring -> jsstring -> option A) r,
  forallb cls taken = true -> stops cls rest -> min <= length taken ->
  k (acc ++ taken) rest = Some r ->
  greedy cls min (taken ++ rest) acc k = Some r.
Proof.
  induction taken as [|c t IH]; intros min acc rest k r Ht Hr Hmin Hk.
  - simpl in Hmin. assert (min = 0) by lia; subst min.
    rewrite app_nil_r in Hk. simpl.
    destruct rest as [|c rest]; simpl in *; [exact Hk | now rewrite Hr].
  - simpl in Ht. apply andb_true_iff in Ht as [Hc Ht].
    simpl. rewrite Hc.
    rewrite (IH (pred min) (acc ++ [c]) rest k r); auto.
    + simpl in Hmin; lia.
    + now rewrite <- app_assoc.
Qed.

(** A match takes some run of the class, at least [min] long, that the
    rest of the pattern accepts. *)
Lemma greedy_inv : forall s min acc (k : jsstring -> jsstring -> option A) r,
  greedy cls min s acc k = Some r ->
  exists taken rest,
    s = taken ++ rest /\ forallb cls taken = true /\
    min <= length taken /\ k (acc ++ taken) rest = Some r.
Proof.
  assert (Stop : forall s min acc (k : jsstring -> jsstring -> option A) r,
    match min with O => k acc s | S _ => None end = Some r ->
    exists taken rest,
      s = taken ++ rest /\ forallb cls taken = true /\
      min <= length taken /\ k (acc ++ taken) rest = Some r).
  { intros s min acc k r E. destruct min; [|discriminate].
    exists [], s. rewrite app_nil_r. simpl. auto. }
  induction s as [|c s IH]; intros min acc k r E; simpl in E.
  - now apply Stop.
  - destruct (cls c) eqn:Hc; [|now apply Stop].
    destruct (greedy cls (pred min) s (acc ++ [c]) k) as [r'|] eqn:G;
      [|now apply Stop].
    injection E as <-.
    destruct (IH _ _ _ _ G) as (t & rest & -> & Ht & Hmin & Hk).
    exists (c :: t), rest. simpl. rewrite Hc, Ht.
    rewrite <- app_assoc in Hk. repeat split; auto. lia.
Qed.

(** Any admissible run that the rest of the pattern accepts is enough
    for a match (maybe of a longer run). *)
Lemma greedy_complete taken : forall min acc rest
    (k : jsstring -> jsstring -> option A),
  forallb cls taken = true -> min <= length taken ->
  k (acc ++ taken) rest <> None ->
  greedy cls min (taken ++ rest) acc k <> None.
Proof.
  induction taken as [|c t IH]; intros min acc rest k Ht Hmin Hk.
  - simpl in Hmin. assert (min = 0) by lia; subst min.
    rewrite app_nil_r in Hk. simpl.
    destruct rest as [|c rest]; simpl; [exact Hk|].
    destruct (cls c); [|exact Hk].
    destruct (greedy cls 0 rest (acc ++ [c]) k); [discriminate | exact Hk].
  - simpl in Ht. apply andb_true_iff in Ht as [Hc Ht].
    simpl. rewrite Hc.
    assert (G : greedy cls (pred min) (t ++ rest) (acc ++ [c]) k <> None).
    { apply IH; auto; [simpl in Hmin; lia | now rewrite <- app_assoc]. }
    destruct (greedy cls (pred min) (t ++ rest) (acc ++ [c]) k);
      [discriminate | congruence].
Qed.

(** When the rest of the pattern cannot fail, nothing is given back. *)
Lemma greedy_total : forall s acc (k : jsstring -> jsstring -> option A),
  (forall a b, k a b <> None) ->
  greedy cls 0 s acc k = k (acc ++ take_while cls s) (drop_while cls s).
Proof.
  induction s as [|c s IH]; intros acc k Hk; simpl.
  - now rewrite app_nil_r.
  - destruct (cls c) eqn:Hc; [|now rewrite app_nil_r].
    rewrite (IH _ _ Hk), <- app_assoc. simpl.
    destruct (k (acc ++ c :: take_while cls s) (drop_while cls s)) eqn:E;
      [reflexivity | now apply Hk in E].
Qed.
End GreedyFacts.

(** The part of the pattern after the hyphen always matches: it skips the
    white space and takes what is left up to a line terminator. *)
Lemma after_hyphen (g1 r3 : jsstring) :
  greedy is_space 0 r3 [] (fun _ r4 =>
    greedy dot 0 r4 [] (fun g2 _ => Some (g1, g2)))
  = Some (g1, take_while dot (drop_while is_space r3)).
Proof.
  rewrite greedy_total.
  - rewrite greedy_total; [reflexivity | discriminate].
  - intros a b. rewrite greedy_total; discriminate.
Qed.

(** ** The pattern of a task line *)

Lemma take_while_stops p q s : stops p s -> stops p (take_while q s).
Proof.
  destruct s as [|c s]; simpl; [auto|]. intros Hc. now destruct (q c).
Qed.

Lemma goal_pattern_at_sound s g1 g2 :
  goal_pattern_at s = Some (g1, g2) ->
  exists post,
    pattern_at s [] g1 g2 post /\ stops is_space g2 /\ stops dot post.
Proof.
  unfold goal_pattern_at. intros E.
  apply greedy_inv in E as (tok & r1 & -> & Htok & Hlen & E).
  apply greedy_inv in E as (ws1 & r2 & -> & Hws1 & _ & E).
  destruct r2 as [|c r3]; [discriminate|].
  destruct (c =? HYPHEN)%N eqn:Hc; [|discriminate].
  apply N.eqb_eq in Hc; subst c.
  rewrite after_hyphen in E. injection E as <- <-.
  exists (drop_while dot (drop_while is_space r3)). split.
  - exists ws1, (take_while is_space r3). simpl.
    rewrite <- take_drop_while, <- take_drop_while.
    repeat split; auto using take_while_all.
    destruct tok; [simpl in Hlen; lia | discriminate].
  - split; [|apply drop_while_stops].
    apply take_while_stops, drop_while_stops.
Qed.

Lemma goal_pattern_cons c s :
  goal_pattern (c :: s) =
  match goal_pattern_at (c :: s) with
  | Some r => Some r
  | None => goal_pattern s
  end.
Proof. reflexivity. Qed.

Lemma goal_pattern_sound s : forall g1 g2,
  goal_pattern s = Some (g1, g2) -> pattern_in_line s g1 g2.
Proof.
  induction s as [|c s IH]; intros g1 g2 E.
  - discriminate E.
  - rewrite goal_pattern_cons in E.
    destruct (goal_pattern_at (c :: s)) as [[a b]|] eqn:G.
    + injection E as <- <-.
      apply goal_pattern_at_sound in G as (post & G & Hp). now exists [], post.
    + apply IH in E as (pre & post & (ws1 & ws2 & -> & Hrest) & Hp).
      exists (c :: pre), post. split; [|exact Hp].
      exists ws1, ws2. split; [reflexivity | exact Hrest].
Qed.

Lemma goal_pattern_at_complete tok ws1 rest :
  tok <> [] -> forallb non_space tok = true -> forallb is_space ws1 = true ->
  goal_pattern_at (tok ++ ws1 ++ HYPHEN :: rest) <> None.
Proof.
  intros Hne Htok Hws1. unfold goal_pattern_at.
  apply greedy_complete; auto.
  - destruct tok; [congruence | simpl; lia].
  - apply greedy_complete; auto; [simpl; lia|].
    simpl app. rewrite N.eqb_refl, after_hyphen. discriminate.
Qed.

Lemma goal_pattern_complete pre : forall s,
  goal_pattern_at s <> None -> goal_pattern (pre ++ s) <> None.
Proof.
  assert (Here : forall s, goal_pattern_at s <> None -> goal_pattern s <> None).
  { intros s G. destruct (goal_pattern_at s) as [r|] eqn:E; [|congruence].
    destruct s; [discriminate E|].
    rewrite goal_pattern_cons, E. discriminate. }
  induction pre as [|c pre IH]; intros s G; simpl app; [now apply Here|].
  rewrite goal_pattern_cons.
  destruct (goal_pattern_at (c :: pre ++ s)); [discriminate|].
  now apply IH.
Qed.

(** A task line as Gradle prints it, with the token at the start of the
    line and white space before the hyphen, gives its token and its
    description. *)
Lemma goal_pattern_task_line tok ws1 ws2 desc :
  tok <> [] -> forallb non_space tok = true ->
  ws1 <> [] -> forallb is_space ws1 = true -> forallb is_space ws2 = true ->
  forallb dot desc = true -> stops is_space desc ->
  goal_pattern (tok ++ ws1 ++ [HYPHEN] ++ ws2 ++ desc) = Some (tok, desc).
Proof.
  intros Hne Htok Hne1 Hws1 Hws2 Hdesc Hstop.
  assert (G : goal_pattern_at (tok ++ ws1 ++ [HYPHEN] ++ ws2 ++ desc)
              = Some (tok, desc)).
  { unfold goal_pattern_at. apply greedy_longest; auto.
    - destruct ws1 as [|c ws1]; [congruence|]. simpl in *.
      apply andb_true_iff in Hws1 as [Hc _].
      unfold non_space. now rewrite Hc.
    - destruct tok; [congruence | simpl; lia].
    - simpl app at 1. apply greedy_longest; auto; [reflexivity | simpl; lia|].
      simpl app. rewrite N.eqb_refl, after_hyphen.
      rewrite drop_while_app by assumption.
      replace desc with (desc ++ []) at 1 by apply app_nil_r.
      rewrite take_while_app; [reflexivity | assumption | exact I]. }
  destruct (tok ++ ws1 ++ [HYPHEN] ++ ws2 ++ desc); [discriminate G|].
  now rewrite goal_pattern_cons, G.
Qed.

(** ** The parser, line by line *)

Lemma parse_line_inside category gs line :
  parse_line category (true, gs) line =
  (match line with [] => false | _ :: _ => true end, gs ++ line_goals line).
Proof.
  unfold parse_line, line_goals.
  destruct (startsWith line (lit "---")); simpl; [now rewrite app_nil_r|].
  destruct (goal_pattern line) as [[g1 g2]|]; [reflexivity|].
  now rewrite app_nil_r.
Qed.

Lemma parse_line_outside category gs line :
  parse_line category (false, gs) line = (JS.eqb line category, gs).
Proof.
  unfold parse_line. now destruct (JS.eqb line category).
Qed.

Lemma parse_lines_outside category gs lines :
  Forall (fun l => l <> category) lines ->
  fold_left (parse_line category) lines (false, gs) = (false, gs).
Proof.
  induction 1 as [|l ls Hl _ IH]; cbn [fold_left]; [reflexivity|].
  rewrite parse_line_outside. apply eqb_neq in Hl. now rewrite Hl.
Qed.

Lemma parse_lines_inside category lines : forall gs,
  Forall (fun l => l <> []) lines ->
  fold_left (parse_line category) lines (true, gs) =
  (true, gs ++ flat_map line_goals lines).
Proof.
  induction lines as [|l ls IH]; intros gs Hall; cbn [fold_left flat_map].
  - now rewrite app_nil_r.
  - inversion Hall as [|? ? Hl Hls]; subst.
    rewrite parse_line_inside.
    destruct l as [|c l]; [congruence|].
    rewrite (IH _ Hls), <- app_assoc. reflexivity.
Qed.

Lemma truthy_nonempty s : truthy s = true -> s <> [].
Proof. destruct s; [discriminate | discriminate]. Qed.

Lemma no_hyphen_no_match text :
  forallb (fun c => negb (c =? HYPHEN)%N) text = true ->
  goal_pattern text = None.
Proof.
  intros Hno. destruct (goal_pattern text) as [[g1 g2]|] eqn:E; [|reflexivity].
  apply goal_pattern_sound in E as (pre & post & (ws1 & ws2 & -> & _) & _).
  rewrite !forallb_app, !andb_true_iff in Hno.
  destruct Hno as (_ & _ & _ & Hh & _). discriminate Hh.
Qed.

Lemma render_goals l :
  well_formed l = true ->
  render l <> [] /\ line_goals (render l) = listed l.
Proof.
  destruct l as [rest | tok ws1 ws2 desc | text];
    cbn [well_formed render listed]; intros Hwf.
  - split; [discriminate | reflexivity].
  - rewrite !andb_true_iff in Hwf.
    destruct Hwf as (((((((Ht & Htok) & Hw) & Hws1) & Hws2) & Hd) & Hs) & Hp).
    apply truthy_nonempty in Ht. apply truthy_nonempty in Hw.
    split; [destruct tok; [congruence | discriminate]|].
    unfold line_goals. apply negb_true_iff in Hp. rewrite Hp.
    rewrite goal_pattern_task_line; auto.
    destruct desc as [|c desc]; [exact I|].
    unfold non_space in Hs. now apply negb_true_iff in Hs.
  - rewrite !andb_true_iff in Hwf. destruct Hwf as ((Ht & Hno) & Hp).
    split; [now apply truthy_nonempty|].
    unfold line_goals. apply negb_true_iff in Hp. rewrite Hp.
    now rewrite no_hyphen_no_match.
Qed.

Lemma section_goals items :
  forallb well_formed items = true ->
  Forall (fun l => l <> []) (map render items) /\
  flat_map line_goals (map render items) = flat_map listed items.
Proof.
  induction items as [|l items IH]; simpl; intros Hwf; [auto|].
  apply andb_true_iff in Hwf as [Hl Hwf].
  destruct (render_goals l Hl) as [Hne Hg].
  destruct (IH Hwf) as [Hall Hflat].
  split; [constructor; assumption | now rewrite Hg, Hflat].
Qed.

(** The parse of a report that holds one well-formed section under the
    header [category]. *)
Lemma parse_section out category pre header body blank post items :
  split_lf out = pre ++ header :: body ++ blank :: post ->
  Forall (fun l => trim l <> category) pre ->
  trim header = category ->
  map trim body = map render items ->
  forallb well_formed items = true ->
  trim blank = [] ->
  Forall (fun l => trim l <> category) post ->
  parseAvailableGradleGoals out category = flat_map listed items.
Proof.
  intros Hsplit Hpre Hhdr Hbody Hwf Hblank Hpost.
  unfold parseAvailableGradleGoals.
  rewrite Hsplit, map_app, fold_left_app.
  rewrite parse_lines_outside by (now apply Forall_map).
  cbn [map fold_left].
  rewrite parse_line_outside, Hhdr, eqb_refl.
  rewrite map_app, fold_left_app, Hbody.
  destruct (section_goals items Hwf) as [Hne Hflat].
  rewrite parse_lines_inside by assumption.
  cbn [map fold_left].
  rewrite parse_line_inside, Hblank.
  rewrite parse_lines_outside by (now apply Forall_map).
  cbn. now rewrite !app_nil_r, Hflat.
Qed.

(** ** The parser on a well-formed section *)

(** C1: for every task report whose lines hold a well-formed section under
    the header [category] (lines before it, the header, the lines of the
    section, a blank line, lines after it; the header line occurs nowhere
    else), [parseAvailableGradleGoals] returns exactly the task/description
    pairs of that section in their order, nothing of the lines before or
    after it, and the empty sequence when the section lists no task. *)
Theorem parse_extracts_section :
  forall out category pre header body blank post items,
    split_lf out = pre ++ header :: body ++ blank :: post ->
    Forall (fun l => trim l <> category) pre ->
    trim header = category ->
    map trim body = map render items ->
    forallb well_formed items = true ->
    trim blank = [] ->
    Forall (fun l => trim l <> category) post ->
    parseAvailableGradleGoals out category = flat_map listed items /\
    ((forall l, In l items -> listed l = []) ->
     parseAvailableGradleGoals out category = []).
Proof.
  intros out category pre header body blank post items
         Hsplit Hpre Hhdr Hbody Hwf Hblank Hpost.
  assert (E : parseAvailableGradleGoals out category = flat_map listed items)
    by (eapply parse_section; eassumption).
  split; [exact E|].
  intros Hnone. rewrite E. clear - Hnone.
  induction items as [|l items IH]; [reflexivity|].
  cbn [flat_map]. rewrite (Hnone l (or_introl eq_refl)).
  apply IH. intros l' Hin. apply Hnone. now right.
Qed.

Lemma parse_extracts_section_witness :
  parseAvailableGradleGoals sample_report (lit "Build tasks")
  = [ {| label := lit "assemble";
         detail := lit "Assembles the outputs of this project." |};
      {| label := lit "build";
         detail := lit "Assembles and tests this project." |} ].
Proof.
  refine (proj1 (@parse_extracts_section sample_report (lit "Build tasks")
    [lit "> Task :tasks" ++ [CR]; [CR]]
    (lit "Build tasks" ++ [CR])
    [lit "-----------" ++ [CR];
     lit "assemble - Assembles the outputs of this project." ++ [CR];
     lit "build - Assembles and tests this project." ++ [CR]]
    [CR]
    (map (fun l => lit l ++ [CR])
       [ "Upload tasks"; "------------";
         "dockerPush - Pushes a Docker Image"; "";
         "To see all tasks, run gradlew tasks --all" ]%string)
    sample_section _ _ _ _ _ _ _)).
  - reflexivity.
  - repeat constructor; discriminate.
  - reflexivity.
  - reflexivity.
  - reflexivity.
  - reflexivity.
  - repeat constructor; discriminate.
Defined.

(** C3, as amended: while the flag is true, a blank line clears the flag
    and emits nothing; a line that begins with the divider prefix is
    skipped; any other line emits one Goal exactly when it holds, anywhere
    in it, a token, optional white space, a hyphen, optional white space and
    a description that runs to the end of the line or to the first line
    terminator (CR, U+2028, U+2029) inside the line; the Goal carries such a
    token as label and such a description as detail; a line that holds no
    such pattern emits nothing.  A line that is a token, white space, a
    hyphen, white space and a description without line terminators emits
    that token and that description. *)
Theorem in_section_line_rule :
  forall category goals line,
    (line = [] -> parse_line category (true, goals) line = (false, goals)) /\
    (startsWith line (lit "---") = true ->
     parse_line category (true, goals) line = (true, goals)) /\
    (line <> [] -> startsWith line (lit "---") = false ->
     ((exists tok desc, pattern_in_line line tok desc) <->
      (exists g, parse_line category (true, goals) line
                 = (true, goals ++ [g]))) /\
     (forall g, parse_line category (true, goals) line = (true, goals ++ [g]) ->
                pattern_in_line line (label g) (detail g)) /\
     ((~ exists tok desc, pattern_in_line line tok desc) ->
      parse_line category (true, goals) line = (true, goals)) /\
     (forall tok ws1 ws2 desc,
        line = render (Task tok ws1 ws2 desc) ->
        well_formed (Task tok ws1 ws2 desc) = true ->
        parse_line category (true, goals) line
        = (true, goals ++ [{| label := tok; detail := desc |}]))).
Proof.
  intros category goals line. split; [|split].
  - intros ->. reflexivity.
  - intros Hd. rewrite parse_line_inside. unfold line_goals. rewrite Hd.
    destruct line; [discriminate Hd | now rewrite app_nil_r].
  - intros Hne Hd. rewrite parse_line_inside. unfold line_goals. rewrite Hd.
    destruct line as [|c line]; [congruence|]. clear Hne.
    set (l := c :: line) in *.
    assert (Complete : (exists tok desc, pattern_in_line l tok desc) ->
                       goal_pattern l <> None).
    { intros (tok & desc & pre & post & (ws1 & ws2 & -> & Hn & Ht & Hw & _) & _).
      apply goal_pattern_complete.
      now apply goal_pattern_at_complete. }
    destruct (goal_pattern l) as [[g1 g2]|] eqn:E.
    + pose proof (goal_pattern_sound _ E) as Hs.
      repeat split.
      * intros _. now eexists.
      * intros _. now exists g1, g2.
      * intros g Hg. injection Hg as Hg. apply app_inv_head in Hg.
        injection Hg as <-. exact Hs.
      * intros Hno. exfalso. apply Hno. now exists g1, g2.
      * intros tok ws1 ws2 desc Hl Hwf.
        destruct (render_goals _ Hwf) as [_ Hg].
        unfold line_goals in Hg. rewrite <- Hl, Hd, E in Hg.
        cbn [listed] in Hg. now rewrite Hg.
    + repeat split.
      * intros Hex. now apply Complete in Hex.
      * intros [g Hg]. injection Hg as Hg.
        apply app_inv_head in Hg. discriminate Hg.
      * intros g Hg. injection Hg as Hg.
        apply app_inv_head in Hg. discriminate Hg.
      * now rewrite app_nil_r.
      * intros tok ws1 ws2 desc Hl Hwf.
        destruct (render_goals _ Hwf) as [_ Hg].
        unfold line_goals in Hg. rewrite <- Hl, Hd, E in Hg.
        discriminate Hg.
Qed.

Lemma in_section_line_rule_witness :
  parse_line (lit "Build tasks") (true, [])
             (lit "build - Assembles and tests this project.")
  = (true, [{| label := lit "build";
               detail := lit "Assembles and tests this project." |}]).
Proof.
  refine (proj2 (proj2 (proj2 (proj2 (proj2
    (in_section_line_rule (lit "Build tasks") []
       (lit "build - Assembles and tests this project."))) _ _)))
    (lit "build") [SPACE] [SPACE]
    (lit "Assembles and tests this project.") _ _).
  - discriminate.
  - reflexivity.
  - reflexivity.
  - reflexivity.
Defined.

(** C3 as stated fails: inside the section, the line [a - b<CR>c] emits a
    Goal whose detail is [b], which is not the rest of the line. *)
Lemma description_stops_at_line_terminator :
  exists g,
    parse_line (lit "Build tasks") (true, []) broken_line = (true, [g]) /\
    label g = lit "a" /\ detail g = lit "b" /\
    ~ pattern_to_end broken_line (label g) (detail g).
Proof.
  exists {| label := lit "a"; detail := lit "b" |}.
  repeat split.
  intros (pre & ws1 & ws2 & E & _).
  apply (f_equal (fun l => last l 0%N)) in E.
  cbn [label detail] in E.
  rewrite app_nil_r in E.
  change (lit "b") with ([] ++ [98%N]) in E.
  rewrite !app_assoc, last_last in E.
  discriminate E.
Qed.

(** ** Escaping and the command lines *)

Lemma escape_from_app p a x :
  escape_from p (a ++ x)
  = escape_from p a ++ escape_from (ends_in_space p a) x.
Proof.
  revert p; induction a as [|c a IH]; intros p; simpl; [reflexivity|].
  destruct (is_space c); rewrite IH.
  - now rewrite app_assoc.
  - reflexivity.
Qed.

Lemma escape_from_stops p b :
  stops is_space b -> escape_from p b = escape_from false b.
Proof.
  destruct b as [|c b]; simpl; [reflexivity|]. now intros ->.
Qed.

Lemma escape_in_run ws b :
  forallb is_space ws = true -> stops is_space b ->
  escape_from true (ws ++ b) = ws ++ escape_from false b.
Proof.
  induction ws as [|c ws IH]; simpl; intros Hws Hb.
  - now apply escape_from_stops.
  - apply andb_true_iff in Hws as [-> Hws]. simpl. f_equal. auto.
Qed.

(** A run of white space that stands alone is copied behind one
    backslash. *)
Lemma escape_run a ws b :
  ends_in_space false a = false -> ws <> [] ->
  forallb is_space ws = true -> stops is_space b ->
  escape_whitespace (a ++ ws ++ b)
  = escape_whitespace a ++ BACKSLASH :: ws ++ escape_whitespace b.
Proof.
  intros Ha Hne Hws Hb. unfold escape_whitespace.
  rewrite escape_from_app, Ha. f_equal.
  destruct ws as [|c ws]; [congruence|].
  simpl in Hws. apply andb_true_iff in Hws as [Hc Hws].
  simpl. rewrite Hc. simpl. do 2 f_equal. now apply escape_in_run.
Qed.

Lemma escape_no_space p s :
  forallb non_space s = true -> escape_from p s = s.
Proof.
  revert p; induction s as [|c s IH]; intros p; simpl; [reflexivity|].
  intros H. apply andb_true_iff in H as [Hc Hs].
  unfold non_space in Hc. apply negb_true_iff in Hc. rewrite Hc.
  f_equal. auto.
Qed.

Lemma escape_truthy s : s <> [] -> truthy (escape_whitespace s) = true.
Proof.
  destruct s as [|c s]; [congruence|]. intros _.
  unfold escape_whitespace. simpl. now destruct (is_space c).
Qed.

(** C5: for every goal and every located Gradle wrapper (its path is not
    empty), the command line is the escaped wrapper path, a space, the goal
    unchanged, a space and [--no-daemon]; escaping copies a path without
    white space, and replaces every run of white space of the path by a
    backslash and that run, so a space that follows a code unit that is not
    white space comes out behind a backslash in the command line. *)
Theorem gradle_command_line :
  forall wrapper goal,
    fsPath wrapper <> [] ->
    terminalGradleCommandFor wrapper goal
    = Some (escape_whitespace (fsPath wrapper) ++ [SPACE] ++ goal
            ++ [SPACE] ++ lit "--no-daemon") /\
    (forallb non_space (fsPath wrapper) = true ->
     escape_whitespace (fsPath wrapper) = fsPath wrapper) /\
    (forall a ws b,
       fsPath wrapper = a ++ ws ++ b ->
       ends_in_space false a = false -> ws <> [] ->
       forallb is_space ws = true -> stops is_space b ->
       escape_whitespace (fsPath wrapper)
       = escape_whitespace a ++ BACKSLASH :: ws ++ escape_whitespace b) /\
    (forall a b,
       fsPath wrapper = a ++ SPACE :: b -> ends_in_space false a = false ->
       exists rest,
         terminalGradleCommandFor wrapper goal
         = Some (escape_whitespace a ++ [BACKSLASH; SPACE] ++ rest)).
Proof.
  intros wrapper goal Hne.
  assert (Cmd : terminalGradleCommandFor wrapper goal
                = Some (escape_whitespace (fsPath wrapper) ++ [SPACE] ++ goal
                        ++ [SPACE] ++ lit "--no-daemon")).
  { unfold terminalGradleCommandFor. now rewrite escape_truthy. }
  split; [exact Cmd|]. split; [|split].
  - apply escape_no_space.
  - intros a ws b -> Ha Hws Hall Hb. now apply escape_run.
  - intros a b E Ha. rewrite Cmd, E. unfold escape_whitespace.
    rewrite escape_from_app, Ha. simpl.
    eexists. rewrite <- app_assoc. reflexivity.
Qed.

Lemma gradle_command_line_witness :
  terminalGradleCommandFor spaced_wrapper (lit "build")
  = Some (lit "/home/me/my\ project/gradlew build --no-daemon").
Proof.
  exact (proj1 (@gradle_command_line spaced_wrapper (lit "build")
                  ltac:(discriminate))).
Defined.

Lemma maven_command_key goal phase :
  In (goal, phase) maven_table -> maven_command goal = phase.
Proof.
  unfold maven_table. simpl.
  intros [E|[E|[E|[E|[E|[E|[]]]]]]]; injection E as <- <-; reflexivity.
Qed.

Lemma maven_command_other goal :
  (forall phase, ~ In (goal, phase) maven_table) -> maven_command goal = goal.
Proof.
  intros Hno. unfold maven_command.
  repeat match goal with
  | |- (if JS.eqb goal ?k then ?v else _) = _ =>
      destruct (JS.eqb goal k) eqn:E;
      [ apply eqb_eq in E; exfalso; apply (Hno v); subst goal;
        unfold maven_table; simpl; tauto
      | clear E ]
  end.
  reflexivity.
Qed.

(** C2: for every goal identifier (a string that is not empty) and every
    located Maven wrapper (its path is not empty), the command line is the
    escaped wrapper path, a space and the goal translated by the table; an
    identifier that the table does not list is passed through unchanged. *)
Theorem maven_command_line :
  forall wrapper goal,
    fsPath wrapper <> [] -> goal <> [] ->
    (forall phase,
       In (goal, phase) maven_table ->
       terminalMavenCommandFor wrapper goal
       = Some (escape_whitespace (fsPath wrapper) ++ [SPACE] ++ phase)) /\
    ((forall phase, ~ In (goal, phase) maven_table) ->
     terminalMavenCommandFor wrapper goal
     = Some (escape_whitespace (fsPath wrapper) ++ [SPACE] ++ goal)).
Proof.
  intros wrapper goal Hw Hg. unfold terminalMavenCommandFor.
  rewrite (escape_truthy Hw). cbv zeta. split.
  - intros phase Hin. rewrite (maven_command_key Hin).
    assert (truthy phase = true) as ->; [|reflexivity].
    unfold maven_table in Hin. simpl in Hin.
    destruct Hin as [E|[E|[E|[E|[E|[E|[]]]]]]]; injection E as <- <-;
      reflexivity.
  - intros Hno. rewrite (maven_command_other Hno).
    destruct goal; [congruence | reflexivity].
Qed.

(** The guards of the two synthesizers: no command for an empty wrapper
    path, and none from Maven for an empty goal. *)
Lemma synthesizer_guards :
  (forall goal, terminalGradleCommandFor {| fsPath := [] |} goal = None) /\
  (forall goal, terminalMavenCommandFor {| fsPath := [] |} goal = None) /\
  (forall wrapper, terminalMavenCommandFor wrapper [] = None).
Proof.
  split; [|split]; intros; try reflexivity.
  unfold terminalMavenCommandFor.
  now destruct (truthy (escape_whitespace (fsPath wrapper))).
Qed.

Lemma maven_command_line_witness :
  terminalMavenCommandFor {| fsPath := lit "/home/me/my project/mvnw" |}
                          (lit "nativeImage")
  = Some (lit "/home/me/my\ project/mvnw package -Dpackaging=native-image").
Proof.
  refine (proj1 (@maven_command_line
                   {| fsPath := lit "/home/me/my project/mvnw" |}
                   (lit "nativeImage") _ _)
                (lit "package -Dpackaging=native-image") _).
  - discriminate.
  - discriminate.
  - unfold maven_table. simpl. tauto.
Defined.

(** ** The catalog *)





(** ** The dispatcher *)

Lemma buildWrapper_gradle H T (gradle maven : Uri -> M (option T)) st w ws :
  findFiles H (gradle_glob H) exclude_glob = w :: ws ->
  buildWrapper H (Some gradle) (Some maven) st = gradle w (searched_gradle H st).
Proof.
  intros Hg. unfold buildWrapper, workspace_findFiles, bind, emit, ret.
  now rewrite Hg.
Qed.

Lemma buildWrapper_maven H T (gradle maven : Uri -> M (option T)) st w ws :
  findFiles H (gradle_glob H) exclude_glob = [] ->
  findFiles H (maven_glob H) exclude_glob = w :: ws ->
  buildWrapper H (Some gradle) (Some maven) st = maven w (searched_both H st).
Proof.
  intros Hg Hm. unfold buildWrapper, workspace_findFiles, bind, emit, ret.
  now rewrite Hg, Hm.
Qed.

Lemma buildWrapper_none H T (gradle maven : Uri -> M (option T)) st :
  findFiles H (gradle_glob H) exclude_glob = [] ->
  findFiles H (maven_glob H) exclude_glob = [] ->
  buildWrapper H (Some gradle) (Some maven) st = (Ok None, searched_both H st).
Proof.
  intros Hg Hm. unfold buildWrapper, workspace_findFiles, bind, emit, ret.
  now rewrite Hg, Hm.
Qed.

(** C7: with both handlers supplied, the dispatcher runs the Gradle handler
    (on the first Gradle wrapper) when a Gradle wrapper is found, whatever
    the search for Maven wrappers would give; it runs the Maven handler
    only when no Gradle wrapper and some Maven wrapper is found; it gives
    no result when neither is found.  So where a Gradle wrapper is found,
    also next to a Maven wrapper, the command is the Gradle command and the
    catalog is parsed from the output of the Gradle wrapper. *)
Theorem gradle_wrapper_first :
  forall H st,
    (forall T (gradle maven : Uri -> M (option T)),
       (forall w ws,
          findFiles H (gradle_glob H) exclude_glob = w :: ws ->
          buildWrapper H (Some gradle) (Some maven) st
          = gradle w (searched_gradle H st)) /\
       (forall w ws,
          findFiles H (gradle_glob H) exclude_glob = [] ->
          findFiles H (maven_glob H) exclude_glob = w :: ws ->
          buildWrapper H (Some gradle) (Some maven) st
          = maven w (searched_both H st)) /\
       (findFiles H (gradle_glob H) exclude_glob = [] ->
        findFiles H (maven_glob H) exclude_glob = [] ->
        buildWrapper H (Some gradle) (Some maven) st
        = (Ok None, searched_both H st))) /\
    (forall w ws,
       findFiles H (gradle_glob H) exclude_glob = w :: ws ->
       (forall goal,
          terminalCommandFor H goal st
          = (Ok (terminalGradleCommandFor w goal), searched_gradle H st)) /\
       builderInit H st
       = bind (getAvailableGradleGoals H w) set_goals (searched_gradle H st)).
Proof.
  intros H st. split.
  - intros T gradle maven. split; [|split].
    + intros w ws. apply buildWrapper_gradle.
    + intros w ws. apply buildWrapper_maven.
    + apply buildWrapper_none.
  - intros w ws Hg. split.
    + intros goal. unfold terminalCommandFor.
      now erewrite buildWrapper_gradle by exact Hg.
    + unfold builderInit, bind at 1.
      erewrite buildWrapper_gradle by exact Hg.
      unfold bind.
      destruct (getAvailableGradleGoals H w (searched_gradle H st))
        as [[g|e] st']; reflexivity.
Qed.

Lemma gradle_wrapper_first_witness :
  terminalCommandFor (gradle_host sample_report) (lit "build") initial
  = (Ok (Some (lit "/work/demo/gradlew build --no-daemon")),
     searched_gradle (gradle_host sample_report) initial).
Proof.
  exact (proj1 (proj2 (gradle_wrapper_first (gradle_host sample_report)
                         initial) gradlew [] eq_refl) (lit "build")).
Defined.

(** [chooseGoal] on the sequences of the catalog, by their length. *)
Lemma chooseGoal_empty H goal group st :
  truthy_opt goal = false ->
  chooseGoal H goal group (Sequence []) st = (Ok (Some (lit "build")), st).
Proof.
  intros Hgoal. unfold chooseGoal. now rewrite Hgoal.
Qed.

Lemma chooseGoal_single H goal group item st :
  truthy_opt goal = false ->
  chooseGoal H goal group (Sequence [item]) st = (Ok (Some (label item)), st).
Proof.
  intros Hgoal. unfold chooseGoal. now rewrite Hgoal.
Qed.

Lemma chooseGoal_several H goal group i1 i2 items st :
  truthy_opt goal = false ->
  let placeHolder := lit "Select " ++ group ++ lit " goal to invoke" in
  chooseGoal H goal group (Sequence (i1 :: i2 :: items)) st
  = (Ok match showQuickPick H (i1 :: i2 :: items) placeHolder with
        | Some selected => Some (label selected)
        | None => goal
        end,
     logged (ShowQuickPick (i1 :: i2 :: items) placeHolder) st).
Proof.
  intros Hgoal placeHolder. unfold chooseGoal. rewrite Hgoal.
  cbn [negb length_of length]. cbv zeta. fold placeHolder.
  unfold bind, pick, bind, emit, ret.
  now destruct (showQuickPick H (i1 :: i2 :: items) placeHolder).
Qed.

(** C6: when the search finds no Gradle wrapper and no Maven wrapper,
    [builderInit] leaves the catalog with both sequences empty; [build]
    called without a goal for the build or the deploy group takes the goal
    [build]; no command is synthesized for any goal; and [build] throws the
    error [No terminal command for build], having opened no terminal. *)
Theorem no_wrapper_found :
  forall H st,
    findFiles H (gradle_glob H) exclude_glob = [] ->
    findFiles H (maven_glob H) exclude_glob = [] ->
    builderInit H st
    = (Ok tt, {| goals := Some empty_catalog;
                 terminals := terminals st;
                 log := log (searched_both H st) |}) /\
    (forall goal,
       terminalCommandFor H goal st = (Ok None, searched_both H st)) /\
    (goals st = Some empty_catalog ->
     forall goal group,
       truthy_opt goal = false ->
       member empty_catalog (group_or_default group) = Sequence [] ->
       chooseGoal H goal (group_or_default group)
                  (member empty_catalog (group_or_default group)) st
       = (Ok (Some (lit "build")), st) /\
       build H goal group st
       = (Throw (Error (lit "No terminal command for build")),
          searched_both H st)).
Proof.
  intros H st Hg Hm.
  assert (Cmd : forall goal s,
            terminalCommandFor H goal s = (Ok None, searched_both H s)).
  { intros goal s. unfold terminalCommandFor. now apply buildWrapper_none. }
  split; [|split].
  - unfold builderInit, bind. now rewrite buildWrapper_none.
  - intros goal. apply Cmd.
  - intros Hgoals goal group Hgoal Hitems.
    pose proof (chooseGoal_empty H goal (group_or_default group) st Hgoal)
      as Choose.
    rewrite Hitems. split; [exact Choose|].
    unfold build, bind at 1, goals_of_group, bind at 1, get_goals.
    rewrite Hgoals. unfold ret at 1. rewrite Hitems.
    unfold bind at 1. rewrite Choose.
    change (truthy_opt (Some (lit "build"))) with true. cbv iota.
    unfold bind at 1, checkNativeImage.
    change (JS.eqb (lit "build") (lit "nativeImage")) with false.
    change (JS.eqb (lit "build") (lit "dockerBuildNative")) with false.
    rewrite andb_false_r. unfold ret at 1.
    unfold launch, bind. rewrite Cmd. reflexivity.
Qed.

Lemma no_wrapper_found_witness :
  builderInit bare_host initial
  = (Ok tt, {| goals := Some empty_catalog; terminals := [];
               log := [FindFiles (lit "**/gradlew") (lit "**/node_modules/**");
                       FindFiles (lit "**/mvnw") (lit "**/node_modules/**")] |})
  /\ build bare_host None None
           {| goals := Some empty_catalog; terminals := []; log := [] |}
     = (Throw (Error (lit "No terminal command for build")),
        {| goals := Some empty_catalog; terminals := [];
           log := [FindFiles (lit "**/gradlew") (lit "**/node_modules/**");
                   FindFiles (lit "**/mvnw") (lit "**/node_modules/**")] |}).
Proof.
  split.
  - exact (proj1 (@no_wrapper_found bare_host initial eq_refl eq_refl)).
  - exact (proj2 (proj2 (proj2
      (@no_wrapper_found bare_host
         {| goals := Some empty_catalog; terminals := []; log := [] |}
         eq_refl eq_refl)) eq_refl None None eq_refl eq_refl)).
Defined.

(** ** The build action *)

(** [build] once the catalog has been read and the goal chosen. *)
Lemma build_chosen H st gs goal group chosen st1 :
  goals st = Some gs ->
  chooseGoal H goal (group_or_default group)
             (member gs (group_or_default group)) st = (Ok chosen, st1) ->
  build H goal group st
  = if truthy_opt chosen then
      let g := match chosen with Some g => g | None => [] end in
      match checkNativeImage H g (getJavaHome H) st1 with
      | (Ok true, st2) => launch H g (getJavaHome H) st2
      | (Ok false, st2) => (Ok tt, st2)
      | (Throw e, st2) => (Throw e, st2)
      end
    else (Ok tt, st1).
Proof.
  intros Hgoals Hchoose.
  unfold build, bind at 1, goals_of_group, bind at 1, get_goals.
  rewrite Hgoals. unfold ret at 1. unfold bind at 1. rewrite Hchoose.
  destruct (truthy_opt chosen); [|reflexivity].
  unfold bind.
  destruct (checkNativeImage H _ (getJavaHome H) st1) as [[[|]|e] st2];
    reflexivity.
Qed.

(** C9: when [build] is called without a goal, the group holds two or more
    goals and the user dismisses the picker, [build] returns normally and
    its only effect is the picker: no search for a wrapper, no command, no
    terminal disposed or created, no error. *)
Theorem picker_dismissed :
  forall H st gs goal group items,
    truthy_opt goal = false ->
    goals st = Some gs ->
    member gs (group_or_default group) = Sequence items ->
    2 <= length items ->
    showQuickPick H items (placeHolder_of group) = None ->
    build H goal group st
    = (Ok tt, logged (ShowQuickPick items (placeHolder_of group)) st).
Proof.
  intros H st gs goal group items Hgoal Hgoals Hprop Hlen Hpick.
  rewrite (@build_chosen H st gs goal group goal
             (logged (ShowQuickPick items (placeHolder_of group)) st) Hgoals).
  - now rewrite Hgoal.
  - rewrite Hprop.
    destruct items as [|i1 [|i2 items]]; [simpl in Hlen; lia ..|].
    rewrite chooseGoal_several by exact Hgoal.
    unfold placeHolder_of in Hpick. now rewrite Hpick.
Qed.

Lemma picker_dismissed_witness :
  build bare_host None None maven_state
  = (Ok tt,
     logged (ShowQuickPick (build_goals getAvailableMavenGoals)
                           (lit "Select build goal to invoke"))
            maven_state).
Proof.
  refine (@picker_dismissed bare_host maven_state getAvailableMavenGoals
            None None (build_goals getAvailableMavenGoals)
            eq_refl eq_refl eq_refl _ eq_refl).
  simpl. lia.
Defined.





(** * Further properties of the parser *)

(** The lines of one section, read from outside any section, leave the
    parser outside again with the pairs of the section added. *)
Lemma parse_lines_section category pre header body blank items gs :
  Forall (fun l => trim l <> category) pre ->
  trim header = category ->
  map trim body = map render items ->
  forallb well_formed items = true ->
  trim blank = [] ->
  fold_left (parse_line category)
            (map trim (pre ++ header :: body ++ [blank])) (false, gs)
  = (false, gs ++ flat_map listed items).
Proof.
  intros Hpre Hhdr Hbody Hwf Hblank.
  rewrite map_app, fold_left_app.
  rewrite parse_lines_outside by (now apply Forall_map).
  cbn [map fold_left].
  rewrite parse_line_outside, Hhdr, eqb_refl.
  rewrite map_app, fold_left_app, Hbody.
  destruct (section_goals items Hwf) as [Hne Hflat].
  rewrite parse_lines_inside by assumption.
  cbn [map fold_left].
  rewrite parse_line_inside, Hblank. cbn.
  now rewrite app_nil_r, Hflat.
Qed.

(** X1: a report none of whose lines is the header gives no goal. *)
Theorem parse_without_header :
  forall out category,
    Forall (fun l => trim l <> category) (split_lf out) ->
    parseAvailableGradleGoals out category = [].
Proof.
  intros out category Hall. unfold parseAvailableGradleGoals.
  rewrite parse_lines_outside by (now apply Forall_map). reflexivity.
Qed.

Lemma parse_without_header_witness :
  parseAvailableGradleGoals sample_report (lit "Publishing tasks") = [].
Proof.
  apply (@parse_without_header sample_report (lit "Publishing tasks")).
  repeat constructor; discriminate.
Defined.

(** X2: a section that runs to the end of the text, with no blank line
    after it, is parsed like a terminated one. *)
Theorem parse_unterminated_section :
  forall out category pre header body items,
    split_lf out = pre ++ header :: body ->
    Forall (fun l => trim l <> category) pre ->
    trim header = category ->
    map trim body = map render items ->
    forallb well_formed items = true ->
    parseAvailableGradleGoals out category = flat_map listed items.
Proof.
  intros out category pre header body items Hsplit Hpre Hhdr Hbody Hwf.
  unfold parseAvailableGradleGoals.
  rewrite Hsplit, map_app, fold_left_app.
  rewrite parse_lines_outside by (now apply Forall_map).
  cbn [map fold_left].
  rewrite parse_line_outside, Hhdr, eqb_refl, Hbody.
  destruct (section_goals items Hwf) as [Hne Hflat].
  rewrite parse_lines_inside by assumption.
  cbn. now rewrite Hflat.
Qed.

Lemma parse_unterminated_section_witness :
  parseAvailableGradleGoals unterminated_report (lit "Build tasks")
  = flat_map listed sample_section.
Proof.
  refine (@parse_unterminated_section unterminated_report (lit "Build tasks")
            [] (lit "Build tasks")
            (map lit [ "-----------";
                       "assemble - Assembles the outputs of this project.";
                       "build - Assembles and tests this project." ]%string)
            sample_section _ _ _ _ _).
  - reflexivity.
  - constructor.
  - reflexivity.
  - reflexivity.
  - reflexivity.
Defined.

(** X3: every occurrence of the header starts a section: a report with two
    well-formed sections under the same header gives the pairs of the first
    followed by the pairs of the second. *)
Theorem parse_repeated_header :
  forall out category pre h1 body1 blank1 items1 mid h2 body2 blank2 items2 post,
    split_lf out
    = (pre ++ h1 :: body1 ++ [blank1]) ++ (mid ++ h2 :: body2 ++ [blank2])
      ++ post ->
    Forall (fun l => trim l <> category) pre ->
    trim h1 = category ->
    map trim body1 = map render items1 ->
    forallb well_formed items1 = true ->
    trim blank1 = [] ->
    Forall (fun l => trim l <> category) mid ->
    trim h2 = category ->
    map trim body2 = map render items2 ->
    forallb well_formed items2 = true ->
    trim blank2 = [] ->
    Forall (fun l => trim l <> category) post ->
    parseAvailableGradleGoals out category
    = flat_map listed items1 ++ flat_map listed items2.
Proof.
  intros out category pre h1 body1 blank1 items1 mid h2 body2 blank2 items2
         post Hsplit Hpre Hh1 Hb1 Hw1 Hbl1 Hmid Hh2 Hb2 Hw2 Hbl2 Hpost.
  unfold parseAvailableGradleGoals.
  rewrite Hsplit.
  rewrite (map_app trim (pre ++ h1 :: body1 ++ [blank1])), fold_left_app.
  rewrite (map_app trim (mid ++ h2 :: body2 ++ [blank2])), fold_left_app.
  rewrite (@parse_lines_section category pre h1 body1 blank1 items1 []
             Hpre Hh1 Hb1 Hw1 Hbl1).
  rewrite (@parse_lines_section category mid h2 body2 blank2 items2 _
             Hmid Hh2 Hb2 Hw2 Hbl2).
  rewrite parse_lines_outside by (now apply Forall_map).
  reflexivity.
Qed.

Lemma parse_repeated_header_witness :
  map label (parseAvailableGradleGoals repeated_report (lit "Build tasks"))
  = [lit "assemble"; lit "build"; lit "jar"].
Proof.
  refine (f_equal (map label)
    (@parse_repeated_header repeated_report (lit "Build tasks")
       [] (lit "Build tasks")
       (map lit [ "-----------";
                  "assemble - Assembles the outputs of this project.";
                  "build - Assembles and tests this project." ]%string)
       [] sample_section
       (map lit [ "Help tasks"; "----------";
                  "help - Displays a help message."; "" ]%string)
       (lit "Build tasks")
       (map lit [ "-----------"; "jar - Assembles a jar archive." ]%string)
       []
       [ Divider (lit "--------");
         Task (lit "jar") [SPACE] [SPACE] (lit "Assembles a jar archive.") ]
       [] _ _ _ _ _ _ _ _ _ _ _ _)).
  all: try reflexivity.
  - constructor.
  - repeat constructor; discriminate.
  - constructor.
Defined.

Lemma parse_line_keeps (P : QuickPickItem -> Prop) category st line :
  (forall l g1 g2, goal_pattern l = Some (g1, g2) ->
                   P {| label := g1; detail := g2 |}) ->
  Forall P (snd st) -> Forall P (snd (parse_line category st line)).
Proof.
  intros Hp Hst. destruct st as [[|] gs]; simpl in Hst.
  - rewrite parse_line_inside. simpl. apply Forall_app. split; [assumption|].
    unfold line_goals. destruct (startsWith line (lit "---")); [constructor|].
    destruct (goal_pattern line) as [[g1 g2]|] eqn:E; [|constructor].
    constructor; [now apply (Hp line) | constructor].
  - now rewrite parse_line_outside.
Qed.

Lemma parse_lines_keep (P : QuickPickItem -> Prop) category lines : forall st,
  (forall l g1 g2, goal_pattern l = Some (g1, g2) ->
                   P {| label := g1; detail := g2 |}) ->
  Forall P (snd st) ->
  Forall P (snd (fold_left (parse_line category) lines st)).
Proof.
  induction lines as [|l ls IH]; intros st Hp Hst; cbn [fold_left];
    [assumption|].
  apply IH; [assumption|]. now apply parse_line_keeps.
Qed.

(** X4: whatever the text, every goal that the parser returns has a label
    that is not empty and holds no white space, and a detail that holds no
    line terminator and does not begin with white space. *)
Theorem parsed_goal_shape :
  forall out category g,
    In g (parseAvailableGradleGoals out category) ->
    label g <> [] /\ forallb non_space (label g) = true /\
    forallb dot (detail g) = true /\ stops is_space (detail g).
Proof.
  intros out category g Hin.
  assert (Hall : Forall (fun g => label g <> [] /\
                                  forallb non_space (label g) = true /\
                                  forallb dot (detail g) = true /\
                                  stops is_space (detail g))
                        (parseAvailableGradleGoals out category)).
  { unfold parseAvailableGradleGoals. apply parse_lines_keep; [|constructor].
    intros l g1 g2 E.
    apply goal_pattern_sound in E
      as (pre & post & (ws1 & ws2 & _ & Hne & Ht & _ & _ & Hd) & Hs & _).
    cbn [label detail]. auto. }
  rewrite Forall_forall in Hall. now apply Hall.
Qed.

Lemma parsed_goal_shape_witness :
  label {| label := lit "build";
           detail := lit "Assembles and tests this project." |} <> [].
Proof.
  refine (proj1 (@parsed_goal_shape sample_report (lit "Build tasks")
                   {| label := lit "build";
                      detail := lit "Assembles and tests this project." |} _)).
  vm_compute. right. left. reflexivity.
Defined.

Section GreedyBackoff.

Variable A : Type.
Variable cls : N -> bool.

(** When the rest of the pattern rejects every run, the quantifier matches
    only if it may stop at once. *)
Lemma greedy_all_fail extra : forall rest min acc
    (k : jsstring -> jsstring -> option A),
  forallb cls extra = true -> stops cls rest ->
  (forall t1 t2, extra = t1 ++ t2 -> t1 <> [] ->
                 k (acc ++ t1) (t2 ++ rest) = None) ->
  greedy cls min (extra ++ rest) acc k
  = match min with O => k acc (extra ++ rest) | S _ => None end.
Proof.
  induction extra as [|c e IH]; intros rest min acc k He Hr Hk.
  - simpl. destruct rest as [|c rest]; simpl in *; [reflexivity|].
    now rewrite Hr.
  - simpl in He. apply andb_true_iff in He as [Hc He].
    simpl. rewrite Hc. rewrite IH; auto.
    + rewrite (Hk [c] e eq_refl) by discriminate.
      now destruct (pred min).
    + intros t1 t2 -> Hne. rewrite <- app_assoc.
      apply (Hk (c :: t1) t2 eq_refl). discriminate.
Qed.

(** The quantifier gives back the code units that the rest of the pattern
    does not accept, down to the longest run that it accepts. *)
Lemma greedy_backoff taken : forall extra rest min acc
    (k : jsstring -> jsstring -> option A) r,
  forallb cls taken = true -> forallb cls extra = true -> stops cls rest ->
  min <= length taken ->
  (forall t1 t2, extra = t1 ++ t2 -> t1 <> [] ->
                 k (acc ++ taken ++ t1) (t2 ++ rest) = None) ->
  k (acc ++ taken) (extra ++ rest) = Some r ->
  greedy cls min (taken ++ extra ++ rest) acc k = Some r.
Proof.
  induction taken as [|c t IH]; intros extra rest min acc k r Ht He Hr Hmin Hk Hok.
  - simpl in Hmin. assert (min = 0) by lia; subst min.
    rewrite app_nil_r in Hok. simpl app. rewrite greedy_all_fail; auto.
  - simpl in Ht. apply andb_true_iff in Ht as [Hc Ht].
    simpl. rewrite Hc.
    rewrite (IH extra rest (pred min) (acc ++ [c]) k r); auto.
    + simpl in Hmin; lia.
    + intros t1 t2 E Hne. rewrite <- app_assoc. now apply Hk.
    + now rewrite <- app_assoc.
Qed.

End GreedyBackoff.

Lemma terminator_is_space c : is_line_terminator c = true -> is_space c = true.
Proof.
  intros E. unfold is_space. rewrite E. now rewrite !orb_true_r.
Qed.

Lemma non_space_dot s : forallb non_space s = true -> forallb dot s = true.
Proof.
  induction s as [|c s IH]; simpl; [reflexivity|].
  intros H. apply andb_true_iff in H as [Hc Hs].
  rewrite (IH Hs), andb_true_r. unfold non_space, dot in *.
  destruct (is_line_terminator c) eqn:E; [|reflexivity].
  now rewrite (terminator_is_space _ E) in Hc.
Qed.

Lemma drop_while_none p s :
  forallb (fun c => negb (p c)) s = true -> drop_while p s = s.
Proof.
  destruct s as [|c s]; simpl; [reflexivity|].
  intros H. apply andb_true_iff in H as [Hc _].
  apply negb_true_iff in Hc. now rewrite Hc.
Qed.

Lemma take_while_every p s : forallb p s = true -> take_while p s = s.
Proof.
  induction s as [|c s IH]; simpl; [reflexivity|].
  intros H. apply andb_true_iff in H as [-> Hs]. f_equal; auto.
Qed.

(** A word with hyphens is split at its last hyphen. *)
Lemma goal_pattern_word tok desc :
  tok <> [] -> forallb non_space tok = true ->
  forallb non_space desc = true ->
  forallb (fun c => negb (c =? HYPHEN)%N) desc = true ->
  goal_pattern (tok ++ [HYPHEN] ++ desc) = Some (tok, desc).
Proof.
  intros Hne Htok Hdesc Hno.
  assert (G : goal_pattern_at (tok ++ [HYPHEN] ++ desc) = Some (tok, desc)).
  { unfold goal_pattern_at.
    replace (tok ++ [HYPHEN] ++ desc) with (tok ++ (HYPHEN :: desc) ++ [])
      by now rewrite app_nil_r.
    apply greedy_backoff; auto.
    - exact I.
    - destruct tok; [congruence | simpl; lia].
    - intros t1 t2 E Hne1. rewrite app_nil_r.
      destruct t1 as [|h d1]; [congruence|]. injection E as _ E. subst desc.
      rewrite forallb_app in Hdesc, Hno.
      apply andb_true_iff in Hdesc as [_ Hd2].
      apply andb_true_iff in Hno as [_ Hn2].
      destruct t2 as [|c t2]; [reflexivity|].
      simpl in Hd2, Hn2.
      apply andb_true_iff in Hd2 as [Hc _].
      apply andb_true_iff in Hn2 as [Hh _].
      unfold non_space in Hc. apply negb_true_iff in Hc, Hh.
      cbn [greedy]. rewrite Hc. now rewrite Hh.
    - rewrite app_nil_r. cbn [app greedy].
      change (is_space HYPHEN) with false. cbv iota.
      rewrite N.eqb_refl, after_hyphen.
      rewrite drop_while_none by exact Hdesc.
      now rewrite take_while_every by now apply non_space_dot. }
  destruct (tok ++ [HYPHEN] ++ desc); [discriminate G|].
  now rewrite goal_pattern_cons, G.
Qed.

(** X5: inside a section, a line that is one word (a task printed without
    a description) is dropped when it holds no hyphen; when it holds
    hyphens it is split at the last one: what stands before it becomes the
    label and what stands after it the detail. *)
Theorem one_word_line :
  forall category goals word,
    word <> [] -> forallb non_space word = true ->
    startsWith word (lit "---") = false ->
    (forallb (fun c => negb (c =? HYPHEN)%N) word = true ->
     parse_line category (true, goals) word = (true, goals)) /\
    (forall tok desc,
       word = tok ++ [HYPHEN] ++ desc -> tok <> [] ->
       forallb (fun c => negb (c =? HYPHEN)%N) desc = true ->
       parse_line category (true, goals) word
       = (true, goals ++ [{| label := tok; detail := desc |}])).
Proof.
  intros category goals word Hne Hword Hd.
  rewrite parse_line_inside. unfold line_goals. rewrite Hd.
  destruct word as [|c w] eqn:Ew; [congruence|]. rewrite <- Ew in *.
  split.
  - intros Hno. rewrite (no_hyphen_no_match _ Hno). now rewrite app_nil_r.
  - intros tok desc E Htok Hno. rewrite E in Hword.
    rewrite !forallb_app in Hword.
    apply andb_true_iff in Hword as [Ht Hrest].
    apply andb_true_iff in Hrest as [_ Hdesc].
    rewrite E, goal_pattern_word; auto.
Qed.

Lemma one_word_line_witness :
  parse_line (lit "Build tasks") (true, []) (lit "docker-build-native")
  = (true, [{| label := lit "docker-build"; detail := lit "native" |}]).
Proof.
  refine (proj2 (@one_word_line (lit "Build tasks") []
                   (lit "docker-build-native") _ _ _)
                (lit "docker-build") (lit "native") _ _ _).
  - discriminate.
  - reflexivity.
  - reflexivity.
  - reflexivity.
  - discriminate.
  - reflexivity.
Defined.

(** ** Trimmed lines and the header *)

Lemma drop_while_snoc p x h :
  p h = false -> drop_while p (x ++ [h]) = drop_while p x ++ [h].
Proof.
  intros Hh. induction x as [|c x IH]; simpl; [now rewrite Hh|].
  now destruct (p c).
Qed.

Lemma drop_while_stopped p s : stops p s -> drop_while p s = s.
Proof.
  destruct s as [|c s]; simpl; [reflexivity|]. now intros ->.
Qed.

(** A trimmed string neither begins nor ends with white space. *)
Lemma trim_stops s : stops is_space (trim s) /\ stops is_space (rev (trim s)).
Proof.
  unfold trim. split.
  - pose proof (drop_while_stops is_space s) as Hd.
    destruct (drop_while is_space s) as [|h d]; [exact I|].
    simpl in Hd. simpl rev.
    rewrite (@drop_while_snoc is_space (rev d) h Hd), rev_app_distr. simpl. exact Hd.
  - rewrite rev_involutive. apply drop_while_stops.
Qed.

Lemma trim_idempotent s : trim (trim s) = trim s.
Proof.
  destruct (trim_stops s) as [Hl Hr].
  unfold trim at 1.
  rewrite (@drop_while_stopped _ _ Hl), (@drop_while_stopped _ _ Hr).
  apply rev_involutive.
Qed.

Lemma parse_without_header_lines out category :
  Forall (fun l => trim l <> category) (split_lf out) ->
  parseAvailableGradleGoals out category = [].
Proof.
  intros Hall. unfold parseAvailableGradleGoals.
  rewrite parse_lines_outside by (now apply Forall_map). reflexivity.
Qed.

(** X6: lines are trimmed before they are compared with the header, so a
    header given with white space at its start or at its end is never
    found and the result is empty, whatever the text. *)
Theorem parse_untrimmed_header :
  forall out category,
    trim category <> category ->
    parseAvailableGradleGoals out category = [].
Proof.
  intros out category Hc. apply parse_without_header_lines.
  apply Forall_forall. intros l _ E. apply Hc.
  rewrite <- E. apply trim_idempotent.
Qed.

Lemma parse_untrimmed_header_witness :
  parseAvailableGradleGoals sample_report (lit "Build tasks ") = [].
Proof.
  apply (@parse_untrimmed_header sample_report (lit "Build tasks ")).
  discriminate.
Defined.

(** * Further properties of the escaping *)

Lemma escape_from_head p s :
  match escape_from p s with
  | [] => s = []
  | c :: _ => is_space c = true -> p = true
  end.
Proof.
  destruct s as [|c s]; simpl; [reflexivity|].
  destruct (is_space c) eqn:E; [|congruence].
  destruct p; simpl; [reflexivity | discriminate].
Qed.

Lemma unescape_escape_from s : forall p,
  unescape_whitespace (escape_from p s) = s.
Proof.
  induction s as [|c s IH]; intros p; [reflexivity|].
  cbn [escape_from]. destruct (is_space c) eqn:Hc.
  - assert (Run : unescape_whitespace (c :: escape_from true s) = c :: s).
    { cbn [unescape_whitespace].
      destruct (escape_from true s) as [|d e] eqn:E.
      - pose proof (escape_from_head true s) as Hs. rewrite E in Hs.
        now subst s.
      - rewrite <- E, IH.
        destruct (c =? BACKSLASH)%N eqn:Hb; [|reflexivity].
        apply N.eqb_eq in Hb. subst c. discriminate Hc. }
    destruct p; cbn [app]; [exact Run|].
    cbn [unescape_whitespace]. rewrite N.eqb_refl, Hc. exact Run.
  - cbn [unescape_whitespace].
    pose proof (escape_from_head false s) as Hs.
    destruct (escape_from false s) as [|d e] eqn:E.
    + now subst s.
    + rewrite <- E, IH.
      destruct (is_space d) eqn:Hd; [now specialize (Hs eq_refl)|].
      now rewrite andb_false_r.
Qed.

(** X7: escaping loses nothing: two wrapper paths with the same escaped
    form are the same path. *)
Theorem escape_whitespace_injective :
  forall a b,
    escape_whitespace a = escape_whitespace b -> a = b.
Proof.
  intros a b E.
  rewrite <- (unescape_escape_from a false), <- (unescape_escape_from b false).
  unfold escape_whitespace in E. now rewrite E.
Qed.

Lemma escape_whitespace_injective_witness :
  lit "/my dir/gradlew" = lit "/my dir/gradlew".
Proof.
  exact (@escape_whitespace_injective (lit "/my dir/gradlew")
           (lit "/my dir/gradlew") eq_refl).
Defined.

Lemma escape_from_guarded s : forall p a c b,
  escape_from p s = a ++ c :: b -> is_space c = true ->
  (a = [] /\ p = true) \/
  (exists a' x, a = a' ++ [x] /\ (x = BACKSLASH \/ is_space x = true)).
Proof.
  assert (Tail : forall h (a2 : jsstring),
            h = BACKSLASH \/ is_space h = true ->
            (a2 = [] /\ true = true) \/
            (exists a' x, a2 = a' ++ [x] /\ (x = BACKSLASH \/ is_space x = true)) ->
            exists a' x, h :: a2 = a' ++ [x]
                         /\ (x = BACKSLASH \/ is_space x = true)).
  { intros h a2 Hh [[-> _] | (a' & x & -> & Hx)].
    - now exists [], h.
    - now exists (h :: a'), x. }
  induction s as [|h s IH]; intros p a c b E Hc.
  - destruct a; discriminate E.
  - cbn [escape_from] in E. destruct (is_space h) eqn:Hh.
    + destruct p; cbn [app] in E.
      * destruct a as [|h' a2]; [now left|]. right.
        injection E as <- E. apply Tail; [now right|]. now apply (IH true _ c b).
      * destruct a as [|h1 a]; [injection E as <- _; discriminate Hc|].
        injection E as <- E. right.
        destruct a as [|h2 a2]; [now exists [], BACKSLASH; auto|].
        injection E as <- E.
        destruct (Tail h a2 (or_intror Hh) (IH true _ c b E Hc))
          as (a' & x & Ea & Hx).
        exists (BACKSLASH :: a'), x. now rewrite Ea.
    + destruct a as [|h' a2]; [injection E as <- _; congruence|].
      injection E as <- E. right.
      destruct (IH false _ c b E Hc) as [[_ F] | (a' & x & -> & Hx)];
        [discriminate F|].
      now exists (h :: a'), x.
Qed.

(** X8: in the escaped path every white space code unit stands behind a
    backslash or behind another white space code unit.  Code unit by code
    unit: a white space code unit that begins a run (it stands first in the
    path or behind a code unit that is not white space) is copied behind a
    backslash; a white space code unit that stands behind white space is
    copied as it is, with no backslash: only the first code unit of every
    run is escaped. *)
Theorem escaped_whitespace_guarded :
  forall path,
    (forall a c b,
       escape_whitespace path = a ++ c :: b -> is_space c = true ->
       exists a' x, a = a' ++ [x] /\ (x = BACKSLASH \/ is_space x = true)) /\
    (forall a c b,
       path = a ++ c :: b -> is_space c = true ->
       ends_in_space false a = false ->
       escape_whitespace path
       = escape_whitespace a ++ BACKSLASH :: c :: escape_from true b) /\
    (forall a c b,
       path = a ++ c :: b -> is_space c = true ->
       ends_in_space false a = true ->
       escape_whitespace path
       = escape_whitespace a ++ c :: escape_from true b).
Proof.
  intros path. split; [|split].
  - intros a c b E Hc.
    destruct (escape_from_guarded path false a c b E Hc) as [[_ F] | Hg];
      [discriminate F | exact Hg].
  - intros a c b -> Hc Ha. unfold escape_whitespace.
    rewrite escape_from_app, Ha. cbn [escape_from]. now rewrite Hc.
  - intros a c b -> Hc Ha. unfold escape_whitespace.
    rewrite escape_from_app, Ha. cbn [escape_from]. now rewrite Hc.
Qed.

Lemma escaped_whitespace_guarded_witness :
  escape_whitespace (lit "/my  dir") = lit "/my\  dir".
Proof.
  exact (proj1 (proj2 (escaped_whitespace_guarded (lit "/my  dir")))
               (lit "/my") SPACE (lit " dir") eq_refl eq_refl eq_refl).
Defined.

(** * Further properties of the build action *)

Lemma terminalCommandFor_eq H goal st :
  terminalCommandFor H goal st = (Ok (synthesized H goal), searched H st).
Proof.
  unfold terminalCommandFor, synthesized, searched.
  destruct (findFiles H (gradle_glob H) exclude_glob) as [|w ws] eqn:Hg.
  - destruct (findFiles H (maven_glob H) exclude_glob) as [|w ws] eqn:Hm.
    + now apply buildWrapper_none.
    + erewrite buildWrapper_maven by eassumption. reflexivity.
  - erewrite buildWrapper_gradle by eassumption. reflexivity.
Qed.

(** [launch], by the command that the workspace gives. *)
Lemma launch_eq H goal javaHome st :
  launch H goal javaHome st
  = match synthesized H goal with
    | Some ((_ :: _) as command) =>
        (Ok tt, launched H javaHome command (searched H st))
    | _ => (Throw (Error (lit "No terminal command for " ++ goal)),
            searched H st)
    end.
Proof.
  unfold launch, bind at 1. rewrite terminalCommandFor_eq.
  destruct (synthesized H goal) as [[|c command]|]; [reflexivity | | reflexivity].
  cbn [truthy_opt truthy]. cbv iota beta.
  unfold launched, bind, get_terminals, set_terminals, emit, ret, logged, named.
  cbn [terminals goals log].
  destruct (existsb _ (terminals (searched H st)));
    destruct javaHome as [[|j jh]|]; cbn [terminal_env terminals goals log];
    rewrite <- ?app_assoc; reflexivity.
Qed.

Lemma chooseGoal_explicit H g group items st :
  truthy g = true -> chooseGoal H (Some g) group items st = (Ok (Some g), st).
Proof.
  intros Hg. unfold chooseGoal. cbn [truthy_opt]. now rewrite Hg.
Qed.

(** [build] called with a goal. *)
Lemma build_explicit H st gs (g : jsstring) group :
  goals st = Some gs -> g <> [] ->
  build H (Some g) group st
  = match checkNativeImage H g (getJavaHome H) st with
    | (Ok true, st1) => launch H g (getJavaHome H) st1
    | (Ok false, st1) => (Ok tt, st1)
    | (Throw e, st1) => (Throw e, st1)
    end.
Proof.
  intros Hgoals Hg.
  assert (Ht : truthy g = true) by (destruct g; [congruence | reflexivity]).
  rewrite (@build_chosen H st gs (Some g) group (Some g) st Hgoals
             (chooseGoal_explicit H g _ _ st Ht)).
  cbn [truthy_opt]. now rewrite Ht.
Qed.

Lemma maven_command_truthy g : g <> [] -> maven_command g <> [].
Proof.
  intros Hg. unfold maven_command.
  repeat match goal with
  | |- (if ?b then _ else _) <> [] => destruct b; [discriminate|]
  end.
  exact Hg.
Qed.

(** X9: with a Gradle wrapper in the workspace, [build] called with a goal
    that passes the probe returns normally, having sent the escaped wrapper
    path, the goal and [--no-daemon] to a fresh Micronaut terminal; the
    Maven wrappers are not searched. *)
Theorem build_runs_gradle :
  forall H st gs (g : jsstring) group w ws st1,
    goals st = Some gs -> g <> [] ->
    checkNativeImage H g (getJavaHome H) st = (Ok true, st1) ->
    findFiles H (gradle_glob H) exclude_glob = w :: ws ->
    fsPath w <> [] ->
    build H (Some g) group st
    = (Ok tt,
       launched H (getJavaHome H)
                (escape_whitespace (fsPath w) ++ [SPACE] ++ g ++ [SPACE]
                 ++ lit "--no-daemon")
                (searched_gradle H st1)).
Proof.
  intros H st gs g group w ws st1 Hgoals Hg Hprobe Hfind Hw.
  rewrite (@build_explicit H st gs g group Hgoals Hg), Hprobe, launch_eq.
  unfold synthesized, searched. rewrite Hfind.
  unfold terminalGradleCommandFor. rewrite (escape_truthy Hw).
  destruct (escape_whitespace (fsPath w)) as [|c e] eqn:E; [|reflexivity].
  pose proof (escape_truthy Hw) as F. rewrite E in F. discriminate F.
Qed.

Lemma build_runs_gradle_witness :
  build (gradle_host sample_report) (Some (lit "assemble")) None busy_state
  = (Ok tt,
     {| goals := Some getAvailableMavenGoals;
        terminals :=
          [ {| name := lit "bash"; env := []; sent := [] |};
            {| name := lit "Micronaut";
               env := [ (lit "JAVA_HOME", lit "/opt/graalvm");
                        (lit "PATH", lit "/opt/graalvm/bin:/usr/bin") ];
               sent := [lit "/work/demo/gradlew assemble --no-daemon"] |} ];
        log := [ FindFiles (lit "**/gradlew") (lit "**/node_modules/**");
                 TerminalDispose (lit "Micronaut");
                 CreateTerminal (lit "Micronaut")
                   [ (lit "JAVA_HOME", lit "/opt/graalvm");
                     (lit "PATH", lit "/opt/graalvm/bin:/usr/bin") ];
                 TerminalShow (lit "Micronaut");
                 TerminalSendText (lit "Micronaut")
                   (lit "/work/demo/gradlew assemble --no-daemon") ] |}).
Proof.
  refine (@build_runs_gradle (gradle_host sample_report) busy_state
            getAvailableMavenGoals (lit "assemble") None gradlew []
            busy_state eq_refl _ eq_refl eq_refl _).
  - discriminate.
  - discriminate.
Defined.

(** X10: with no Gradle wrapper and a Maven wrapper in the workspace,
    [build] called with a goal that passes the probe returns normally,
    having sent the escaped wrapper path and the Maven form of the goal to
    a fresh Micronaut terminal. *)
Theorem build_runs_maven :
  forall H st gs (g : jsstring) group w ws st1,
    goals st = Some gs -> g <> [] ->
    checkNativeImage H g (getJavaHome H) st = (Ok true, st1) ->
    findFiles H (gradle_glob H) exclude_glob = [] ->
    findFiles H (maven_glob H) exclude_glob = w :: ws ->
    fsPath w <> [] ->
    build H (Some g) group st
    = (Ok tt,
       launched H (getJavaHome H)
                (escape_whitespace (fsPath w) ++ [SPACE] ++ maven_command g)
                (searched_both H st1)).
Proof.
  intros H st gs g group w ws st1 Hgoals Hg Hprobe Hgr Hmv Hw.
  rewrite (@build_explicit H st gs g group Hgoals Hg), Hprobe, launch_eq.
  unfold synthesized, searched. rewrite Hgr, Hmv.
  unfold terminalMavenCommandFor. rewrite (escape_truthy Hw). cbv zeta.
  pose proof (maven_command_truthy Hg) as Hm.
  destruct (maven_command g) as [|m ms] eqn:Em; [congruence|].
  cbn [truthy].
  destruct (escape_whitespace (fsPath w)) as [|c e] eqn:E; [|reflexivity].
  pose proof (escape_truthy Hw) as F. rewrite E in F. discriminate F.
Qed.

Lemma build_runs_maven_witness :
  exists st,
    build maven_host (Some (lit "dockerBuild")) None maven_state = (Ok tt, st)
    /\ map sent (terminals st)
       = [[lit "/work/demo/mvnw package -Dpackaging=docker"]].
Proof.
  eexists. split.
  - refine (@build_runs_maven maven_host maven_state getAvailableMavenGoals
              (lit "dockerBuild") None mvnw [] maven_state
              eq_refl _ eq_refl eq_refl eq_refl _); discriminate.
  - reflexivity.
Defined.

(** X11: when no goal is given and the group of the catalog is empty,
    [build] goes on as if it had been called with the goal [build]: an
    empty deploy group runs the build goal. *)
Theorem empty_group_runs_build :
  forall H st gs goal group,
    truthy_opt goal = false ->
    goals st = Some gs ->
    member gs (group_or_default group) = Sequence [] ->
    build H goal group st = build H (Some (lit "build")) group st.
Proof.
  intros H st gs goal group Hgoal Hgoals Hprop.
  rewrite (@build_chosen H st gs goal group (Some (lit "build")) st Hgoals).
  - symmetry.
    apply (@build_chosen H st gs (Some (lit "build")) group
                         (Some (lit "build")) st Hgoals).
    now apply chooseGoal_explicit.
  - rewrite Hprop. now apply chooseGoal_empty.
Qed.

Lemma empty_group_runs_build_witness :
  build (gradle_host unterminated_report) None (Some (lit "deploy"))
        no_upload_state
  = build (gradle_host unterminated_report) (Some (lit "build"))
          (Some (lit "deploy")) no_upload_state.
Proof.
  exact (@empty_group_runs_build (gradle_host unterminated_report)
           no_upload_state _ None (Some (lit "deploy"))
           eq_refl eq_refl eq_refl).
Defined.

(** ** What [build] leaves alone *)

Lemma only_logged_refl st : only_logged st st.
Proof.
  repeat split. exists []. now rewrite app_nil_r.
Qed.

Lemma only_logged_trans st1 st2 st3 :
  only_logged st1 st2 -> only_logged st2 st3 -> only_logged st1 st3.
Proof.
  intros (Hg1 & Ht1 & e1 & Hl1) (Hg2 & Ht2 & e2 & Hl2).
  repeat split; [congruence | congruence|].
  exists (e1 ++ e2). now rewrite Hl2, Hl1, app_assoc.
Qed.

Lemma only_logged_event e st : only_logged st (logged e st).
Proof.
  repeat split. now exists [e].
Qed.

Lemma searched_only_logged H st : only_logged st (searched H st).
Proof.
  unfold searched, searched_both, searched_gradle.
  destruct (findFiles H (gradle_glob H) exclude_glob).
  - eapply only_logged_trans; apply only_logged_event.
  - apply only_logged_event.
Qed.

Lemma chooseGoal_only_logged H goal group items st r st1 :
  chooseGoal H goal group items st = (r, st1) -> only_logged st st1.
Proof.
  unfold chooseGoal.
  destruct (negb (truthy_opt goal));
    [|intros E; injection E as _ <-; apply only_logged_refl].
  destruct items as [[|i1 [|i2 items]] | [|[|n]] | |];
    cbn [length_of length]; cbv zeta;
    unfold bind, pick, bind, emit, ret, throw;
    try (intros E; injection E as _ <-; apply only_logged_refl);
    repeat match goal with
    | |- context [match ?o with Some _ => _ | None => _ end] => destruct o
    | |- context [match ?o with Ok _ => _ | Throw _ => _ end] => destruct o
    end;
    intros E; injection E as _ <-; apply only_logged_event.
Qed.

Lemma checkNativeImage_only_logged H goal javaHome st r st1 :
  checkNativeImage H goal javaHome st = (r, st1) -> only_logged st st1.
Proof.
  unfold checkNativeImage, bind, emit, ret. cbv zeta.
  repeat match goal with
  | |- context [if ?b then _ else _] => destruct b
  | |- context [match ?o with Some _ => _ | None => _ end] => destruct o
  end;
  intros E; injection E as _ <-;
    first [ apply only_logged_refl
          | apply only_logged_event
          | eapply only_logged_trans; apply only_logged_event ].
Qed.

(** [build], phase by phase. *)
Lemma build_eq H goal group st :
  build H goal group st
  = match goals st with
    | None => (Throw TypeError, st)
    | Some gs =>
        match chooseGoal H goal (group_or_default group)
                         (member gs (group_or_default group)) st with
        | (Throw e, st1) => (Throw e, st1)
        | (Ok chosen, st1) =>
            if truthy_opt chosen then
              let g := match chosen with Some g => g | None => [] end in
              match checkNativeImage H g (getJavaHome H) st1 with
              | (Ok true, st2) => launch H g (getJavaHome H) st2
              | (Ok false, st2) => (Ok tt, st2)
              | (Throw e, st2) => (Throw e, st2)
              end
            else (Ok tt, st1)
        end
    end.
Proof.
  destruct (goals st) as [gs|] eqn:Hgoals.
  - destruct (chooseGoal H goal (group_or_default group)
                         (member gs (group_or_default group)) st)
      as [[chosen|e] st1] eqn:Hc.
    + now apply (@build_chosen H st gs goal group chosen st1).
    + unfold build, bind at 1, goals_of_group, bind at 1, get_goals.
      rewrite Hgoals. unfold ret at 1. unfold bind at 1. now rewrite Hc.
  - unfold build, bind at 1, goals_of_group, bind at 1, get_goals.
    now rewrite Hgoals.
Qed.

Lemma dispose_named_count n ts :
  existsb (named n) ts = true ->
  S (length (filter (named n) (dispose_named n ts)))
  = length (filter (named n) ts).
Proof.
  induction ts as [|t ts IH]; cbn [existsb dispose_named filter];
    [discriminate|].
  change (JS.eqb (name t) n) with (named n t).
  destruct (named n t) eqn:E; cbn [orb filter length].
  - reflexivity.
  - intros Hex. rewrite E. now apply IH.
Qed.

Lemma dispose_named_others n ts :
  filter (fun t => negb (named n t)) (dispose_named n ts)
  = filter (fun t => negb (named n t)) ts.
Proof.
  induction ts as [|t ts IH]; cbn [dispose_named filter]; [reflexivity|].
  change (JS.eqb (name t) n) with (named n t).
  destruct (named n t) eqn:E; cbn [negb filter].
  - reflexivity.
  - rewrite E. cbn [negb]. now rewrite IH.
Qed.

Lemma none_named n ts :
  existsb (named n) ts = false -> filter (named n) ts = [].
Proof.
  induction ts as [|t ts IH]; simpl; [reflexivity|].
  intros Hex. apply orb_false_iff in Hex as [-> Hex]. auto.
Qed.

Lemma launched_terminals H javaHome command st :
  length (filter (named MICRONAUT) (terminals (launched H javaHome command st)))
  = Nat.max 1 (length (filter (named MICRONAUT) (terminals st))) /\
  filter (fun t => negb (named MICRONAUT t))
         (terminals (launched H javaHome command st))
  = filter (fun t => negb (named MICRONAUT t)) (terminals st).
Proof.
  unfold launched. cbn [terminals].
  rewrite !filter_app. cbn [filter name].
  change (named MICRONAUT {| name := MICRONAUT;
                             env := terminal_env H javaHome;
                             sent := [command] |}) with true.
  cbn [negb]. rewrite app_nil_r, length_app. cbn [length].
  destruct (existsb (named MICRONAUT) (terminals st)) eqn:Hex.
  - rewrite dispose_named_others. split; [|reflexivity].
    pose proof (dispose_named_count MICRONAUT (terminals st) Hex). lia.
  - split; [|reflexivity]. rewrite (none_named _ _ Hex). reflexivity.
Qed.

Lemma dispose_named_first n ts :
  existsb (named n) ts = true ->
  exists before disposed after,
    ts = before ++ disposed :: after /\
    existsb (named n) before = false /\
    named n disposed = true /\
    dispose_named n ts = before ++ after.
Proof.
  induction ts as [|t ts IH]; cbn [existsb dispose_named]; [discriminate|].
  change (JS.eqb (name t) n) with (named n t).
  destruct (named n t) eqn:E; cbn [orb].
  - intros _. now exists [], t, ts.
  - intros Hex. destruct (IH Hex) as (before & d & after & -> & Hb & Hd & Hr).
    exists (t :: before), d, after. cbn [existsb app].
    now rewrite E, Hb, Hr.
Qed.

(** X12: when [build] returns, normally or not, the terminals that are not
    called Micronaut are the ones there were, in their order.  Either the
    terminals are all as they were, or a command was sent: then the first
    terminal called Micronaut, and only that one, was disposed of (none if
    there was none), and the new Micronaut terminal, which holds the
    command, stands last; so after that there are as many Micronaut
    terminals as before, and one if there was none. *)
Theorem build_terminals :
  forall H goal group st r st',
    build H goal group st = (r, st') ->
    filter (fun t => negb (named MICRONAUT t)) (terminals st')
    = filter (fun t => negb (named MICRONAUT t)) (terminals st) /\
    (terminals st' = terminals st \/
     length (filter (named MICRONAUT) (terminals st'))
     = Nat.max 1 (length (filter (named MICRONAUT) (terminals st)))) /\
    (terminals st' = terminals st \/
     exists command,
       let opened := {| name := MICRONAUT;
                        env := terminal_env H (getJavaHome H);
                        sent := [command] |} in
       (existsb (named MICRONAUT) (terminals st) = false /\
        terminals st' = terminals st ++ [opened]) \/
       (exists before disposed after,
          terminals st = before ++ disposed :: after /\
          existsb (named MICRONAUT) before = false /\
          named MICRONAUT disposed = true /\
          terminals st' = (before ++ after) ++ [opened])).
Proof.
  intros H goal group st r st' E. rewrite build_eq in E.
  assert (Same : forall s, only_logged st s ->
            filter (fun t => negb (named MICRONAUT t)) (terminals s)
            = filter (fun t => negb (named MICRONAUT t)) (terminals st) /\
            (terminals s = terminals st \/
             length (filter (named MICRONAUT) (terminals s))
             = Nat.max 1 (length (filter (named MICRONAUT) (terminals st)))) /\
            (terminals s = terminals st \/
             exists command,
               let opened := {| name := MICRONAUT;
                                env := terminal_env H (getJavaHome H);
                                sent := [command] |} in
               (existsb (named MICRONAUT) (terminals st) = false /\
                terminals s = terminals st ++ [opened]) \/
               (exists before disposed after,
                  terminals st = before ++ disposed :: after /\
                  existsb (named MICRONAUT) before = false /\
                  named MICRONAUT disposed = true /\
                  terminals s = (before ++ after) ++ [opened]))).
  { intros s (_ & Ht & _). rewrite Ht. auto. }
  destruct (goals st) as [gs|];
    [|injection E as _ <-; apply Same, only_logged_refl].
  destruct (chooseGoal H goal _ _ st) as [[chosen|e] st1] eqn:Hc;
    pose proof (chooseGoal_only_logged _ _ _ _ _ Hc) as F1;
    [|injection E as _ <-; now apply Same].
  destruct (truthy_opt chosen); [|injection E as _ <-; now apply Same].
  cbv zeta in E.
  destruct (checkNativeImage H _ (getJavaHome H) st1) as [[[|]|e] st2] eqn:Hp;
    pose proof (checkNativeImage_only_logged _ _ _ _ Hp) as F2;
    pose proof (only_logged_trans F1 F2) as F;
    try (injection E as _ <-; now apply Same).
  rewrite launch_eq in E.
  pose proof (only_logged_trans F (searched_only_logged H st2)) as F3.
  destruct (synthesized H _) as [[|c command]|];
    try (injection E as _ <-; now apply Same).
  injection E as _ <-.
  destruct (launched_terminals H (getJavaHome H) (c :: command) (searched H st2))
    as [Hn Ho].
  destruct F3 as (_ & Ht & _). rewrite Ht in Hn, Ho.
  split; [exact Ho|]. split; [now right|].
  right. exists (c :: command). cbv zeta.
  unfold launched. cbn [terminals]. rewrite Ht.
  destruct (existsb (named MICRONAUT) (terminals st)) eqn:Hex.
  - right. destruct (dispose_named_first MICRONAUT (terminals st) Hex)
      as (before & d & after & Hts & Hb & Hd & Hr).
    exists before, d, after. now rewrite Hr.
  - left. split; reflexivity.
Qed.

Lemma build_terminals_witness :
  filter (fun t => negb (named MICRONAUT t))
         (terminals (snd (build (gradle_host sample_report)
                                (Some (lit "assemble")) None busy_state)))
  = [{| name := lit "bash"; env := []; sent := [] |}].
Proof.
  exact (proj1 (@build_terminals (gradle_host sample_report)
                  (Some (lit "assemble")) None busy_state _ _ eq_refl)).
Defined.

(** X13: [build] never changes the catalog, and it only adds to the log of
    what it did to the host. *)
Theorem build_keeps_catalog :
  forall H goal group st r st',
    build H goal group st = (r, st') ->
    goals st' = goals st /\ exists events, log st' = log st ++ events.
Proof.
  intros H goal group st r st' E. rewrite build_eq in E.
  assert (Same : forall s, only_logged st s ->
            goals s = goals st /\ exists events, log s = log st ++ events).
  { intros s (Hg & _ & He). auto. }
  destruct (goals st) as [gs|] eqn:Hgoals;
    [|injection E as _ <-; apply Same, only_logged_refl].
  destruct (chooseGoal H goal _ _ st) as [[chosen|e] st1] eqn:Hc;
    pose proof (chooseGoal_only_logged _ _ _ _ _ Hc) as F1;
    [|injection E as _ <-; now apply Same].
  destruct (truthy_opt chosen); [|injection E as _ <-; now apply Same].
  cbv zeta in E.
  destruct (checkNativeImage H _ (getJavaHome H) st1) as [[[|]|e] st2] eqn:Hp;
    pose proof (checkNativeImage_only_logged _ _ _ _ Hp) as F2;
    pose proof (only_logged_trans F1 F2) as F;
    try (injection E as _ <-; now apply Same).
  rewrite launch_eq in E.
  pose proof (only_logged_trans F (searched_only_logged H st2)) as F3.
  destruct (synthesized H _) as [[|c command]|];
    try (injection E as _ <-; now apply Same).
  injection E as _ <-.
  destruct F3 as (Hg & _ & events & Hl).
  unfold launched. cbn [goals log]. split; [congruence|].
  rewrite Hl, <- !app_assoc. eexists. reflexivity.
Qed.

Lemma build_keeps_catalog_witness :
  goals (snd (build (gradle_host sample_report) (Some (lit "assemble")) None
                    busy_state))
  = Some getAvailableMavenGoals.
Proof.
  exact (proj1 (@build_keeps_catalog (gradle_host sample_report)
                  (Some (lit "assemble")) None busy_state _ _ eq_refl)).
Defined.

(** ** Initialization *)

Lemma builderInit_gradle H st w ws :
  findFiles H (gradle_glob H) exclude_glob = w :: ws ->
  builderInit H st
  = match execFileSync H (fsPath w) (tasks_args H w) with
    | None =>
        (Throw ChildProcessError,
         logged (ExecFileSync (fsPath w) (tasks_args H w))
                (searched_gradle H st))
    | Some out =>
        (Ok tt,
         {| goals := Some {| build_goals :=
                               parseAvailableGradleGoals out (lit "Build tasks");
                             deploy_goals :=
                               parseAvailableGradleGoals out (lit "Upload tasks") |};
            terminals := terminals st;
            log := (log st ++ [FindFiles (gradle_glob H) exclude_glob])
                   ++ [ExecFileSync (fsPath w) (tasks_args H w)] |})
    end.
Proof.
  intros Hg. unfold builderInit, bind at 1.
  erewrite buildWrapper_gradle by exact Hg.
  unfold bind, getAvailableGradleGoals, emit, ret, throw. cbv zeta.
  fold (tasks_args H w).
  now destruct (execFileSync H (fsPath w) (tasks_args H w)).
Qed.

(** X14: when the Gradle wrapper cannot be run, [builderInit] throws and
    leaves the catalog as it was, without trying a Maven wrapper; if the
    catalog was not initialized before, every later [build] throws a
    TypeError and does nothing else. *)
Theorem failed_listing :
  forall H st w ws,
    findFiles H (gradle_glob H) exclude_glob = w :: ws ->
    execFileSync H (fsPath w) (tasks_args H w) = None ->
    let st' := logged (ExecFileSync (fsPath w) (tasks_args H w))
                      (searched_gradle H st) in
    builderInit H st = (Throw ChildProcessError, st') /\
    goals st' = goals st /\
    (goals st = None ->
     forall goal group, build H goal group st' = (Throw TypeError, st')).
Proof.
  intros H st w ws Hg Hx st'. split; [|split].
  - rewrite (builderInit_gradle H st Hg), Hx. reflexivity.
  - reflexivity.
  - intros Hnone goal group. rewrite build_eq.
    change (goals st') with (goals st). now rewrite Hnone.
Qed.

Lemma failed_listing_witness :
  builderInit failing_host initial
  = (Throw ChildProcessError,
     {| goals := None; terminals := [];
        log := [ FindFiles (lit "**/gradlew") (lit "**/node_modules/**");
                 ExecFileSync (lit "/work/demo/gradlew")
                   [ lit "tasks"; lit "--no-daemon";
                     lit "--project-dir=/work/demo" ] ] |}).
Proof.
  exact (proj1 (@failed_listing failing_host initial gradlew [] eq_refl eq_refl)).
Defined.

(** X15: [builderInit] replaces the catalog: with a Gradle wrapper that
    runs, by the Build tasks and the Upload tasks sections of its one
    output; with no Gradle wrapper and a Maven wrapper, by the hardcoded
    Maven catalog, without running any process. *)
Theorem initialized_catalog :
  forall H st w ws,
    (findFiles H (gradle_glob H) exclude_glob = w :: ws ->
     forall out,
       execFileSync H (fsPath w) (tasks_args H w) = Some out ->
       builderInit H st
       = (Ok tt,
          {| goals := Some {| build_goals :=
                                parseAvailableGradleGoals out (lit "Build tasks");
                              deploy_goals :=
                                parseAvailableGradleGoals out (lit "Upload tasks") |};
             terminals := terminals st;
             log := (log st ++ [FindFiles (gradle_glob H) exclude_glob])
                    ++ [ExecFileSync (fsPath w) (tasks_args H w)] |})) /\
    (findFiles H (gradle_glob H) exclude_glob = [] ->
     findFiles H (maven_glob H) exclude_glob = w :: ws ->
     builderInit H st
     = (Ok tt,
        {| goals := Some getAvailableMavenGoals;
           terminals := terminals st;
           log := log (searched_both H st) |})).
Proof.
  intros H st w ws. split.
  - intros Hg out Hx. rewrite (builderInit_gradle H st Hg), Hx. reflexivity.
  - intros Hg Hm. unfold builderInit, bind.
    erewrite buildWrapper_maven by eassumption. reflexivity.
Qed.

Lemma initialized_catalog_witness :
  fst (builderInit (gradle_host sample_report) maven_state) = Ok tt /\
  option_map (fun g => (map label (build_goals g), map label (deploy_goals g)))
             (goals (snd (builderInit (gradle_host sample_report) maven_state)))
  = Some ([lit "assemble"; lit "build"], [lit "dockerPush"]).
Proof.
  rewrite (proj1 (@initialized_catalog (gradle_host sample_report) maven_state
                    gradlew []) eq_refl sample_report eq_refl).
  split; reflexivity.
Defined.

(** ** The goal and the group *)

(** X16: when a goal is given, the group has no influence on [build]: the
    catalog is not consulted and no picker is shown. *)
Theorem explicit_goal_ignores_group :
  forall H st gs (g : jsstring) group group',
    goals st = Some gs -> g <> [] ->
    build H (Some g) group st = build H (Some g) group' st.
Proof.
  intros H st gs g group group' Hgoals Hg.
  now rewrite (@build_explicit H st gs g group Hgoals Hg),
              (@build_explicit H st gs g group' Hgoals Hg).
Qed.

Lemma explicit_goal_ignores_group_witness :
  build maven_host (Some (lit "dockerPush")) (Some (lit "deploy")) maven_state
  = build maven_host (Some (lit "dockerPush")) (Some (lit "no such group"))
          maven_state.
Proof.
  refine (@explicit_goal_ignores_group maven_host maven_state
            getAvailableMavenGoals (lit "dockerPush") _ _ eq_refl _).
  discriminate.
Defined.

(** X18: when no goal is given, the group holds two or more goals and the
    user picks one, [build] goes on, after the picker, as if it had been
    called with the label of the picked item. *)
Theorem picked_goal :
  forall H st gs goal group items item,
    truthy_opt goal = false ->
    goals st = Some gs ->
    member gs (group_or_default group) = Sequence items ->
    2 <= length items ->
    showQuickPick H items (placeHolder_of group) = Some item ->
    label item <> [] ->
    build H goal group st
    = build H (Some (label item)) group
            (logged (ShowQuickPick items (placeHolder_of group)) st).
Proof.
  intros H st gs goal group items item Hgoal Hgoals Hprop Hlen Hpick Hl.
  pose proof (@build_explicit H
                (logged (ShowQuickPick items (placeHolder_of group)) st)
                gs (label item) group Hgoals Hl) as Q.
  rewrite Q. clear Q.
  rewrite (@build_chosen H st gs goal group (Some (label item))
             (logged (ShowQuickPick items (placeHolder_of group)) st) Hgoals).
  - cbn [truthy_opt].
    destruct (label item) as [|c l] eqn:E; [congruence|]. cbn [truthy].
    cbv zeta.
    now destruct (checkNativeImage H (c :: l) (getJavaHome H) _) as [[[|]|e] s].
  - rewrite Hprop.
    destruct items as [|i1 [|i2 items]]; [simpl in Hlen; lia ..|].
    rewrite chooseGoal_several by exact Hgoal.
    unfold placeHolder_of in Hpick. now rewrite Hpick.
Qed.

Lemma picked_goal_witness :
  exists st,
    build picking_host None None maven_state = (Ok tt, st) /\
    map sent (terminals st) = [[lit "/work/demo/mvnw compile"]].
Proof.
  rewrite (@picked_goal picking_host maven_state getAvailableMavenGoals
             None None (build_goals getAvailableMavenGoals)
             {| label := lit "compile";
                detail := lit "Compiles the source code of the project" |}
             eq_refl eq_refl eq_refl ltac:(simpl; lia) eq_refl
             ltac:(discriminate)).
  eexists. split; vm_compute; reflexivity.
Defined.

(** X19: the probe for [native-image] has no effect at all when no Java
    home is configured, when the goal is neither [nativeImage] nor
    [dockerBuildNative], or when the executable is found: [build] then
    searches the wrappers at once and sends the command, or throws when
    there is none. *)
Theorem build_without_probe :
  forall H st gs (g : jsstring) group,
    goals st = Some gs -> g <> [] ->
    (truthy_opt (getJavaHome H) = false \/
     (g <> lit "nativeImage" /\ g <> lit "dockerBuildNative") \/
     (exists jh, getJavaHome H = Some jh /\
                 truthy_opt (findExecutable H NATIVE_IMAGE jh) = true)) ->
    build H (Some g) group st
    = match synthesized H g with
      | Some ((_ :: _) as command) =>
          (Ok tt, launched H (getJavaHome H) command (searched H st))
      | _ => (Throw (Error (lit "No terminal command for " ++ g)),
              searched H st)
      end.
Proof.
  intros H st gs g group Hgoals Hg Hcase.
  rewrite (@build_explicit H st gs g group Hgoals Hg).
  assert (Hp : checkNativeImage H g (getJavaHome H) st = (Ok true, st)).
  { unfold checkNativeImage.
    destruct Hcase as [Hj | [[Hn Hd] | (jh & Hj & Hx)]].
    - now rewrite Hj.
    - apply eqb_neq in Hn, Hd. rewrite Hn, Hd. now rewrite andb_false_r.
    - rewrite Hj. cbv zeta. rewrite Hx.
      now destruct (truthy_opt (Some jh) && _). }
  rewrite Hp. apply launch_eq.
Qed.

Lemma build_without_probe_witness :
  build maven_host (Some (lit "dockerPushNative")) None maven_state
  = (Ok tt,
     launched maven_host (Some (lit "/opt/graalvm"))
              (lit "/work/demo/mvnw deploy -Dpackaging=docker-native")
              (searched maven_host maven_state)).
Proof.
  refine (@build_without_probe maven_host maven_state getAvailableMavenGoals
            (lit "dockerPushNative") None eq_refl _ _).
  - discriminate.
  - right. left. split; discriminate.
Defined.

(** X20: with a Gradle wrapper whose task report holds a well-formed Build
    tasks section and, after it, a well-formed Upload tasks section (each
    header once), [builderInit] sets the build sequence to the pairs of the
    first and the deploy sequence to the pairs of the second. *)
Theorem initialized_from_report :
  forall H st w ws out pre hb bodyb blankb builds mid hu bodyu blanku uploads
         post,
    findFiles H (gradle_glob H) exclude_glob = w :: ws ->
    execFileSync H (fsPath w) (tasks_args H w) = Some out ->
    split_lf out
    = pre ++ hb :: bodyb ++ blankb :: mid ++ hu :: bodyu ++ blanku :: post ->
    trim hb = lit "Build tasks" -> trim hu = lit "Upload tasks" ->
    map trim bodyb = map render builds -> forallb well_formed builds = true ->
    map trim bodyu = map render uploads -> forallb well_formed uploads = true ->
    trim blankb = [] -> trim blanku = [] ->
    Forall (fun l => trim l <> lit "Build tasks")
           (pre ++ mid ++ hu :: bodyu ++ blanku :: post) ->
    Forall (fun l => trim l <> lit "Upload tasks")
           ((pre ++ hb :: bodyb ++ blankb :: mid) ++ post) ->
    exists st',
      builderInit H st = (Ok tt, st') /\
      goals st' = Some {| build_goals := flat_map listed builds;
                          deploy_goals := flat_map listed uploads |}.
Proof.
  intros H st w ws out pre hb bodyb blankb builds mid hu bodyu blanku uploads
         post Hg Hx Hsplit Hhb Hhu Hbb Hwb Hbu Hwu Hblb Hblu Hnb Hnu.
  apply Forall_app in Hnb as [Hnb1 Hnb2].
  apply Forall_app in Hnu as [Hnu1 Hnu2].
  rewrite (builderInit_gradle H st Hg), Hx.
  eexists. split; [reflexivity|]. cbn [goals]. do 2 f_equal.
  - apply (@parse_section out (lit "Build tasks") pre hb bodyb blankb
             (mid ++ hu :: bodyu ++ blanku :: post) builds); assumption.
  - apply (@parse_section out (lit "Upload tasks")
             (pre ++ hb :: bodyb ++ blankb :: mid) hu bodyu blanku post
             uploads); try assumption.
    rewrite Hsplit, <- !app_assoc. cbn [app].
    now rewrite <- !app_assoc.
Qed.

Lemma initialized_from_report_witness :
  exists st',
    builderInit (gradle_host sample_report) initial = (Ok tt, st') /\
    goals st'
    = Some {| build_goals := flat_map listed sample_section;
              deploy_goals :=
                [{| label := lit "dockerPush";
                    detail := lit "Pushes a Docker Image" |}] |}.
Proof.
  refine (@initialized_from_report (gradle_host sample_report) initial
    gradlew [] sample_report
    [lit "> Task :tasks" ++ [CR]; [CR]]
    (lit "Build tasks" ++ [CR])
    [lit "-----------" ++ [CR];
     lit "assemble - Assembles the outputs of this project." ++ [CR];
     lit "build - Assembles and tests this project." ++ [CR]]
    [CR] sample_section
    []
    (lit "Upload tasks" ++ [CR])
    [lit "------------" ++ [CR];
     lit "dockerPush - Pushes a Docker Image" ++ [CR]]
    [CR]
    [ Divider (lit "---------");
      Task (lit "dockerPush") [SPACE] [SPACE] (lit "Pushes a Docker Image") ]
    [lit "To see all tasks, run gradlew tasks --all" ++ [CR]]
    _ _ _ _ _ _ _ _ _ _ _ _ _).
  all: try reflexivity.
  - repeat constructor; discriminate.
  - repeat constructor; discriminate.
Defined.

(** * The goal that [build] takes from the catalog *)

Lemma no_picker_refl st : no_picker st st.
Proof.
  exists []. now rewrite app_nil_r.
Qed.

Lemma no_picker_trans st1 st2 st3 :
  no_picker st1 st2 -> no_picker st2 st3 -> no_picker st1 st3.
Proof.
  intros (e1 & Hl1 & Hp1) (e2 & Hl2 & Hp2).
  exists (e1 ++ e2). split; [now rewrite Hl2, Hl1, app_assoc|].
  now rewrite forallb_app, Hp1, Hp2.
Qed.

Lemma no_picker_event e st : is_picker e = false -> no_picker st (logged e st).
Proof.
  intros He. exists [e]. split; [reflexivity|]. simpl. now rewrite He.
Qed.

Lemma checkNativeImage_no_picker H goal javaHome st r st1 :
  checkNativeImage H goal javaHome st = (r, st1) -> no_picker st st1.
Proof.
  unfold checkNativeImage, bind, emit, ret. cbv zeta.
  repeat match goal with
  | |- context [if ?b then _ else _] => destruct b
  | |- context [match ?o with Some _ => _ | None => _ end] => destruct o
  end;
  intros E; injection E as _ <-;
    first [ apply no_picker_refl
          | now apply no_picker_event
          | eapply no_picker_trans; now apply no_picker_event ].
Qed.

Lemma searched_no_picker H st : no_picker st (searched H st).
Proof.
  unfold searched, searched_both, searched_gradle.
  destruct (findFiles H (gradle_glob H) exclude_glob).
  - eapply no_picker_trans; now apply no_picker_event.
  - now apply no_picker_event.
Qed.

Lemma launched_no_picker H javaHome command st :
  no_picker st (launched H javaHome command st).
Proof.
  unfold launched, no_picker. cbn [log].
  destruct (existsb (named MICRONAUT) (terminals st));
    rewrite <- app_assoc; eexists; split; reflexivity.
Qed.

(** [build] with a goal is the probe and the launch. *)
Lemma build_explicit_runs H st gs (g : jsstring) group :
  goals st = Some gs -> g <> [] ->
  build H (Some g) group st = runs_goal H g st.
Proof.
  intros Hgoals Hg. rewrite (@build_explicit H st gs g group Hgoals Hg).
  unfold runs_goal.
  destruct (checkNativeImage H g (getJavaHome H) st) as [[[|]|e] st1];
    [apply launch_eq | reflexivity | reflexivity].
Qed.

Lemma runs_goal_no_picker H g st r st' :
  runs_goal H g st = (r, st') -> no_picker st st'.
Proof.
  unfold runs_goal.
  destruct (checkNativeImage H g (getJavaHome H) st) as [[[|]|e] st1] eqn:Hp;
    pose proof (checkNativeImage_no_picker _ _ _ _ Hp) as F;
    try (intros E; injection E as _ <-; exact F).
  pose proof (no_picker_trans F (searched_no_picker H st1)) as F2.
  destruct (synthesized H g) as [[|c command]|];
    intros E; injection E as _ <-; try exact F2.
  eapply no_picker_trans; [exact F2 | apply launched_no_picker].
Qed.

(** [build] once the goal has been chosen, in closed form. *)
Lemma build_chosen_runs H st gs goal group chosen st1 :
  goals st = Some gs ->
  chooseGoal H goal (group_or_default group)
             (member gs (group_or_default group)) st = (Ok chosen, st1) ->
  build H goal group st
  = match chosen with
    | Some ((_ :: _) as g) => runs_goal H g st1
    | _ => (Ok tt, st1)
    end.
Proof.
  intros Hgoals Hc.
  rewrite (@build_chosen H st gs goal group chosen st1 Hgoals Hc).
  destruct chosen as [[|c g]|]; [reflexivity | | reflexivity].
  cbn [truthy_opt truthy]. cbv zeta. unfold runs_goal.
  destruct (checkNativeImage H (c :: g) (getJavaHome H) st1) as [[[|]|e] st2];
    [apply launch_eq | reflexivity | reflexivity].
Qed.

(** C10: when [build] is called without a goal and the group holds exactly
    one goal, [build] takes that goal without showing the picker: it does
    with it what it does with a goal that is given (the probe, then the
    command sent to a fresh terminal, or the error when there is no
    command), and no picker event is among its effects.  [build] shows the
    picker, once and first of all, exactly when the group holds two or
    more goals. *)
Theorem single_goal_chosen :
  forall H st gs goal group,
    truthy_opt goal = false ->
    goals st = Some gs ->
    (forall item,
       member gs (group_or_default group) = Sequence [item] ->
       chooseGoal H goal (group_or_default group) (Sequence [item]) st
       = (Ok (Some (label item)), st) /\
       build H goal group st = build H (Some (label item)) group st /\
       build H goal group st
       = match label item with
         | [] => (Ok tt, st)
         | _ :: _ => runs_goal H (label item) st
         end) /\
    (forall items,
       member gs (group_or_default group) = Sequence items ->
       snd (chooseGoal H goal (group_or_default group) (Sequence items) st)
       = if 2 <=? length items
         then logged (ShowQuickPick items (placeHolder_of group)) st
         else st) /\
    (forall items r st',
       member gs (group_or_default group) = Sequence items ->
       build H goal group st = (r, st') ->
       exists events,
         log st' = log st ++ events /\
         (length items < 2 ->
          forallb (fun e => negb (is_picker e)) events = true) /\
         (2 <= length items ->
          exists rest,
            events = ShowQuickPick items (placeHolder_of group) :: rest /\
            forallb (fun e => negb (is_picker e)) rest = true)).
Proof.
  intros H st gs goal group Hgoal Hgoals. split; [|split].
  - intros item Hprop.
    pose proof (chooseGoal_single H goal (group_or_default group) item st Hgoal)
      as Choose.
    assert (Abs : build H goal group st
                  = match label item with
                    | [] => (Ok tt, st)
                    | _ :: _ => runs_goal H (label item) st
                    end).
    { rewrite (@build_chosen_runs H st gs goal group (Some (label item)) st
                 Hgoals) by (now rewrite Hprop).
      now destruct (label item). }
    split; [exact Choose|]. split; [|exact Abs].
    rewrite Abs. symmetry.
    rewrite (@build_chosen_runs H st gs (Some (label item)) group
               (Some (label item)) st Hgoals).
    + now destruct (label item).
    + rewrite Hprop.
      destruct (truthy_opt (Some (label item))) eqn:T.
      * unfold chooseGoal. now rewrite T.
      * now apply chooseGoal_single.
  - intros items Hprop.
    destruct items as [|i1 [|i2 items]].
    + now rewrite chooseGoal_empty.
    + now rewrite chooseGoal_single.
    + now rewrite chooseGoal_several.
  - intros items r st' Hprop E.
    destruct items as [|i1 [|i2 items]].
    + rewrite (@build_chosen_runs H st gs goal group (Some (lit "build")) st
                 Hgoals) in E
        by (rewrite Hprop; now apply chooseGoal_empty).
      apply runs_goal_no_picker in E as (events & Hl & Hp).
      exists events. split; [exact Hl|]. split; [auto|].
      simpl. lia.
    + rewrite (@build_chosen_runs H st gs goal group (Some (label i1)) st
                 Hgoals) in E
        by (rewrite Hprop; now apply chooseGoal_single).
      assert (F : no_picker st st').
      { destruct (label i1) as [|c l];
          [injection E as _ <-; apply no_picker_refl
          | now apply runs_goal_no_picker in E]. }
      destruct F as (events & Hl & Hp).
      exists events. split; [exact Hl|]. split; [auto|].
      simpl. lia.
    + pose proof (chooseGoal_several H goal (group_or_default group)
                    i1 i2 items st Hgoal) as Choose.
      cbv zeta in Choose. fold (placeHolder_of group) in Choose.
      rewrite <- Hprop in Choose at 1.
      rewrite (@build_chosen_runs H st gs goal group _ _ Hgoals Choose) in E.
      assert (F : no_picker
                    (logged (ShowQuickPick (i1 :: i2 :: items)
                                           (placeHolder_of group)) st) st').
      { destruct (match showQuickPick H (i1 :: i2 :: items)
                                      (placeHolder_of group) with
                  | Some selected => Some (label selected)
                  | None => goal
                  end) as [[|c l]|];
          first [ injection E as _ <-; apply no_picker_refl
                | now apply runs_goal_no_picker in E ]. }
      destruct F as (rest & Hl & Hp).
      exists (ShowQuickPick (i1 :: i2 :: items) (placeHolder_of group) :: rest).
      split; [|split].
      * rewrite Hl. cbn [logged log]. now rewrite <- app_assoc.
      * simpl. lia.
      * intros _. now exists rest.
Qed.

Lemma single_goal_chosen_witness :
  build (gradle_host sample_report) None None single_state
  = (Ok tt,
     {| goals := Some single_catalog;
        terminals :=
          [ {| name := lit "Micronaut";
               env := [ (lit "JAVA_HOME", lit "/opt/graalvm");
                        (lit "PATH", lit "/opt/graalvm/bin:/usr/bin") ];
               sent := [lit "/work/demo/gradlew assemble --no-daemon"] |} ];
        log := [ FindFiles (lit "**/gradlew") (lit "**/node_modules/**");
                 CreateTerminal (lit "Micronaut")
                   [ (lit "JAVA_HOME", lit "/opt/graalvm");
                     (lit "PATH", lit "/opt/graalvm/bin:/usr/bin") ];
                 TerminalShow (lit "Micronaut");
                 TerminalSendText (lit "Micronaut")
                   (lit "/work/demo/gradlew assemble --no-daemon") ] |}).
Proof.
  exact (proj2 (proj2 (proj1 (@single_goal_chosen (gradle_host sample_report)
                                single_state single_catalog None None
                                eq_refl eq_refl)
                             {| label := lit "assemble";
                                detail :=
                                  lit "Assembles the outputs of this project." |}
                             eq_refl))).
Defined.

(** Of two Micronaut terminals, [build] disposes of the first. *)
Lemma build_disposes_first :
  map sent (terminals (snd (build maven_host (Some (lit "compile")) None
                                  crowded_state)))
  = [ []; [lit "second"]; [lit "/work/demo/mvnw compile"] ].
Proof. reflexivity. Qed.

(** * Groups outside the catalog *)

(** X17: when no goal is given and the group is neither [build] nor
    [deploy], [goals[group]] is looked up in [Object.prototype].  A name
    that is not there reads as [undefined], and [build] throws a TypeError
    before any effect.  An inherited function without parameters
    ([toString], [toLocaleString], [valueOf]) has length 0, and [build]
    runs the goal [build].  An inherited function with one parameter
    ([constructor], [hasOwnProperty], ...) and the prototype object
    ([__proto__]) give no selection, and [build] returns with no effect.
    An inherited function with two parameters is handed to the picker. *)
Theorem group_outside_catalog :
  forall H st gs goal group,
    truthy_opt goal = false ->
    goals st = Some gs ->
    (member gs (group_or_default group) = Missing ->
     build H goal group st = (Throw TypeError, st)) /\
    (member gs (group_or_default group) = Method 0 ->
     build H goal group st
     = match synthesized H (lit "build") with
       | Some ((_ :: _) as command) =>
           (Ok tt, launched H (getJavaHome H) command (searched H st))
       | _ => (Throw (Error (lit "No terminal command for build")),
               searched H st)
       end) /\
    (member gs (group_or_default group) = Method 1 \/
     member gs (group_or_default group) = Prototype ->
     build H goal group st = (Ok tt, st)) /\
    (forall n,
       member gs (group_or_default group) = Method (S (S n)) ->
       build H goal group st
       = match showQuickPickOf H (Method (S (S n))) (placeHolder_of group) with
         | Throw e =>
             (Throw e,
              logged (ShowQuickPickOf (Method (S (S n))) (placeHolder_of group))
                     st)
         | Ok None =>
             (Ok tt,
              logged (ShowQuickPickOf (Method (S (S n))) (placeHolder_of group))
                     st)
         | Ok (Some selected) =>
             match label selected with
             | [] =>
                 (Ok tt,
                  logged (ShowQuickPickOf (Method (S (S n)))
                                          (placeHolder_of group)) st)
             | _ :: _ =>
                 runs_goal H (label selected)
                   (logged (ShowQuickPickOf (Method (S (S n)))
                                            (placeHolder_of group)) st)
             end
         end) /\
    (forall name,
       (In name [lit "toString"; lit "toLocaleString"; lit "valueOf"] ->
        member gs name = Method 0) /\
       (In name [lit "constructor"; lit "hasOwnProperty"; lit "isPrototypeOf";
                 lit "propertyIsEnumerable"; lit "__lookupGetter__";
                 lit "__lookupSetter__"] ->
        member gs name = Method 1) /\
       (name = lit "__proto__" -> member gs name = Prototype)).
Proof.
  intros H st gs goal group Hgoal Hgoals.
  assert (Silent : forall items,
            member gs (group_or_default group) = items ->
            chooseGoal H goal (group_or_default group) items st = (Ok goal, st) ->
            build H goal group st = (Ok tt, st)).
  { intros items Hm Hc. rewrite <- Hm in Hc.
    rewrite (@build_chosen H st gs goal group goal st Hgoals Hc).
    now rewrite Hgoal. }
  split; [|split; [|split; [|split]]].
  - intros Hm. rewrite build_eq, Hgoals, Hm.
    unfold chooseGoal. now rewrite Hgoal.
  - intros Hm.
    rewrite (@build_chosen_runs H st gs goal group (Some (lit "build")) st
               Hgoals).
    + change (lit "build") with (98%N :: lit "uild") at 1. cbv iota.
      unfold runs_goal, checkNativeImage.
      change (JS.eqb (lit "build") (lit "nativeImage")) with false.
      change (JS.eqb (lit "build") (lit "dockerBuildNative")) with false.
      now rewrite andb_false_r.
    + rewrite Hm. unfold chooseGoal. now rewrite Hgoal.
  - intros [Hm | Hm]; apply (Silent _ Hm);
      unfold chooseGoal; now rewrite Hgoal.
  - intros n Hm.
    assert (Hc : chooseGoal H goal (group_or_default group)
                   (member gs (group_or_default group)) st
                 = match showQuickPickOf H (Method (S (S n)))
                                         (placeHolder_of group) with
                   | Throw e =>
                       (Throw e,
                        logged (ShowQuickPickOf (Method (S (S n)))
                                                (placeHolder_of group)) st)
                   | Ok None =>
                       (Ok goal,
                        logged (ShowQuickPickOf (Method (S (S n)))
                                                (placeHolder_of group)) st)
                   | Ok (Some selected) =>
                       (Ok (Some (label selected)),
                        logged (ShowQuickPickOf (Method (S (S n)))
                                                (placeHolder_of group)) st)
                   end).
    { rewrite Hm. unfold chooseGoal. rewrite Hgoal.
      cbn [negb length_of]. cbv zeta. fold (placeHolder_of group).
      unfold bind, pick, bind, emit, ret, throw.
      now destruct (showQuickPickOf H (Method (S (S n))) (placeHolder_of group))
        as [[selected|]|e]. }
    destruct (showQuickPickOf H (Method (S (S n))) (placeHolder_of group))
      as [[selected|]|e].
    + rewrite (@build_chosen_runs H st gs goal group _ _ Hgoals Hc).
      reflexivity.
    + rewrite (@build_chosen H st gs goal group _ _ Hgoals Hc).
      now rewrite Hgoal.
    + rewrite build_eq, Hgoals, Hc. reflexivity.
  - intros name. split; [|split].
    + intros [<- | [<- | [<- | []]]]; reflexivity.
    + intros [<- | [<- | [<- | [<- | [<- | [<- | []]]]]]]; reflexivity.
    + intros ->. reflexivity.
Qed.

Lemma group_outside_catalog_witness :
  build maven_host None (Some (lit "test")) maven_state
  = (Throw TypeError, maven_state)
  /\ build maven_host None (Some (lit "constructor")) maven_state
     = (Ok tt, maven_state)
  /\ exists st,
       build maven_host None (Some (lit "toString")) maven_state = (Ok tt, st)
       /\ map sent (terminals st) = [[lit "/work/demo/mvnw compile"]].
Proof.
  split; [|split].
  - exact (proj1 (@group_outside_catalog maven_host maven_state
                    getAvailableMavenGoals None (Some (lit "test"))
                    eq_refl eq_refl) eq_refl).
  - exact (proj1 (proj2 (proj2 (@group_outside_catalog maven_host maven_state
                    getAvailableMavenGoals None (Some (lit "constructor"))
                    eq_refl eq_refl))) (or_introl eq_refl)).
  - eexists. split.
    + exact (proj1 (proj2 (@group_outside_catalog maven_host maven_state
                      getAvailableMavenGoals None (Some (lit "toString"))
                      eq_refl eq_refl)) eq_refl).
    + reflexivity.
Defined.
